(** * LLM inference calculator: the calculation engine of
    [inference_calculator.py], embedded and checked against its specification.

    Numbers.  Python [int] is [Z].  Python [float] is modelled by the exact
    rational it stands for ([Q]): a decimal literal such as [0.1] is the
    rational 1/10, true division [/] is division in [Q], and comparisons are
    the order of [Q].  Rounding to binary64 is outside this model;
    equalities between computed floats are therefore stated with [==]
    (equality of rationals) and say which expression is evaluated, not that
    two different evaluations round to the same double.

    Errors.  [calculate] raises [ValueError] during validation; the model
    returns a sum whose left side carries the parts the rendered message is
    built from.

    Range.  [int / int] and the conversion of an [int] operand to [float]
    raise [OverflowError] when the result is beyond the range of binary64.
    The functions of the first part ([calculate_memory_usage], ...,
    [calculate]) are the formulas without this exception; module [Checked]
    embeds the same functions once more with it, every such operation being a
    step that can raise.  Statements about whether a call returns or raises
    are made on [Checked]; statements about the value of a result are made
    on either.

    Module [Binary64] re-evaluates two concrete scenarios in IEEE binary64,
    to show that the departures found there do not come from the choice of
    exact arithmetic.

    Callers.  Modules [ScenarioTester], [AdvancedAnalyzer] and
    [SuccessCriteriaVerifier] embed the functions of [scenario_testing.py],
    [examples/advanced_analysis.py] and [success_criteria_verification.py]
    that compute on results of [calculate]; printing, file access and the
    rendering of numbers as text are left out. *)

From Stdlib Require Import ZArith QArith Qminmax Lqa Lia.
From Stdlib Require Import String List Bool.
From Stdlib Require Import Floats Uint63.
Import ListNotations.

Local Open Scope Z_scope.
Local Open Scope Q_scope.
Local Open Scope string_scope.

(** ** Enumerations *)

Inductive ModelSize : Set := SEVEN_B | THIRTEEN_B | GPT4.

Inductive HardwareType : Set :=
  CPU | GPU_4GB | GPU_8GB | GPU_12GB | GPU_16GB | GPU_24GB | GPU_32GB.

Inductive DeploymentMode : Set := LOCAL | API.

Scheme Equality for ModelSize.
Scheme Equality for HardwareType.
Scheme Equality for DeploymentMode.

(** What [str(e)] is made of for the [ValueError]s this module can raise:
    - [EnumValueError v cls] renders as [f"{v!r} is not a valid {cls}"], the
      error of [Enum.__call__] on an unknown value;
    - [Wrapped p e] renders as [f"{p}{e}"], the re-raise in [calculate];
    - [Message s] renders as [s]. *)
Inductive ValueError : Set :=
| EnumValueError (value : string) (cls : string)
| Wrapped (prefix : string) (cause : ValueError)
| Message (text : string).

(** A small error monad for the code that can raise. *)
Definition M (A : Type) : Type := (ValueError + A)%type.

Definition ret {A} (a : A) : M A := inr a.
Definition raise {A} (e : ValueError) : M A := inl e.
Definition bind {A B} (m : M A) (k : A -> M B) : M B :=
  match m with
  | inl e => inl e
  | inr a => k a
  end.
Definition try_except {A} (body : M A) (handler : ValueError -> M A) : M A :=
  match body with
  | inl e => handler e
  | inr a => inr a
  end.

Notation "x <- m ;; k" := (bind m (fun x => k))
  (at level 61, m at next level, right associativity).
Notation "m ;;; k" := (bind m (fun _ => k))
  (at level 61, right associativity).

(** Python's [Enum]: the members in definition order, the value of each, and
    the class name used in the error of a failed lookup. *)
Class Enum (A : Type) : Type := {
  members : list A;
  value : A -> string;
  qualname : string
}.

#[global] Instance ModelSize_Enum : Enum ModelSize := {|
  members := [SEVEN_B; THIRTEEN_B; GPT4];
  value m := match m with
             | SEVEN_B => "7B"
             | THIRTEEN_B => "13B"
             | GPT4 => "GPT-4"
             end;
  qualname := "ModelSize"
|}.

#[global] Instance HardwareType_Enum : Enum HardwareType := {|
  members := [CPU; GPU_4GB; GPU_8GB; GPU_12GB; GPU_16GB; GPU_24GB; GPU_32GB];
  value h := match h with
             | CPU => "CPU"
             | GPU_4GB => "GPU_4GB"
             | GPU_8GB => "GPU_8GB"
             | GPU_12GB => "GPU_12GB"
             | GPU_16GB => "GPU_16GB"
             | GPU_24GB => "GPU_24GB"
             | GPU_32GB => "GPU_32GB"
             end;
  qualname := "HardwareType"
|}.

#[global] Instance DeploymentMode_Enum : Enum DeploymentMode := {|
  members := [LOCAL; API];
  value d := match d with
             | LOCAL => "local"
             | API => "api"
             end;
  qualname := "DeploymentMode"
|}.

(** [Cls(v)]: the member whose value is [v], or [ValueError]. *)
Definition by_value {A} `{Enum A} (v : string) : M A :=
  match find (fun m => String.eqb (value m) v) members with
  | Some m => ret m
  | None => raise (EnumValueError v qualname)
  end.

(** ** Records *)

Record ModelSpecs : Set := {
  parameters : Z;
  layers : Z;
  heads : Z;
  head_dim : Z;
  context_length : Z;
  vocabulary_size : Z
}.

Record HardwareSpecs : Set := {
  vram_gb : Q;
  memory_bandwidth_gbps : Q;
  compute_flops : Q;
  power_watts : Q;
  cost_usd : Q
}.

Record CalculationResult : Set := {
  latency_seconds : Q;
  memory_usage_gb : Q;
  cost_per_request_usd : Q;
  hardware_compatible : bool;
  recommendations : list string
}.

(** ** The tables set up by [LLMInferenceCalculator.__init__] *)

Definition model_specs (m : ModelSize) : ModelSpecs :=
  match m with
  | SEVEN_B =>
      {| parameters := 7300000000; layers := 32; heads := 32; head_dim := 128;
         context_length := 8192; vocabulary_size := 32000 |}
  | THIRTEEN_B =>
      {| parameters := 13000000000; layers := 40; heads := 40; head_dim := 128;
         context_length := 4096; vocabulary_size := 32000 |}
  | GPT4 =>
      {| parameters := 1760000000000; layers := 96; heads := 96;
         head_dim := 128; context_length := 8192; vocabulary_size := 100000 |}
  end.

Definition hardware_specs (h : HardwareType) : HardwareSpecs :=
  match h with
  | CPU =>
      {| vram_gb := 0; memory_bandwidth_gbps := 50;
         compute_flops := 100000000000; power_watts := 65; cost_usd := 200 |}
  | GPU_4GB =>
      {| vram_gb := 4; memory_bandwidth_gbps := 112;
         compute_flops := 2000000000000; power_watts := 75; cost_usd := 150 |}
  | GPU_8GB =>
      {| vram_gb := 8; memory_bandwidth_gbps := 448;
         compute_flops := 20000000000000; power_watts := 220; cost_usd := 500 |}
  | GPU_12GB =>
      {| vram_gb := 12; memory_bandwidth_gbps := 504;
         compute_flops := 30000000000000; power_watts := 320; cost_usd := 700 |}
  | GPU_16GB =>
      {| vram_gb := 16; memory_bandwidth_gbps := 760;
         compute_flops := 40000000000000; power_watts := 320;
         cost_usd := 1200 |}
  | GPU_24GB =>
      {| vram_gb := 24; memory_bandwidth_gbps := 1008;
         compute_flops := 83000000000000; power_watts := 450;
         cost_usd := 1600 |}
  | GPU_32GB =>
      {| vram_gb := 32; memory_bandwidth_gbps := 1008;
         compute_flops := 83000000000000; power_watts := 450;
         cost_usd := 1600 |}
  end.

(** [api_pricing[m]["input"]] and [api_pricing[m]["output"]], per 1000
    tokens. *)
Record Pricing : Set := { input : Q; output : Q }.

Definition api_pricing (m : ModelSize) : Pricing :=
  match m with
  | SEVEN_B => {| input := 0.0; output := 0.0 |}
  | THIRTEEN_B => {| input := 0.0002; output := 0.0004 |}
  | GPT4 => {| input := 0.01; output := 0.03 |}
  end.

(** [performance_baselines[m][h]], tokens per second. *)
Definition performance_baselines (m : ModelSize) (h : HardwareType) : Q :=
  match m with
  | SEVEN_B =>
      match h with
      | CPU => 3 | GPU_4GB => 8 | GPU_8GB => 15 | GPU_12GB => 25
      | GPU_16GB => 35 | GPU_24GB => 45 | GPU_32GB => 50
      end
  | THIRTEEN_B =>
      match h with
      | CPU => 1 | GPU_4GB => 3 | GPU_8GB => 6 | GPU_12GB => 10
      | GPU_16GB => 15 | GPU_24GB => 25 | GPU_32GB => 30
      end
  | GPT4 =>
      match h with
      | CPU => 0.1 | GPU_4GB => 0.1 | GPU_8GB => 0.1 | GPU_12GB => 0.1
      | GPU_16GB => 0.1 | GPU_24GB => 0.1 | GPU_32GB => 0.1
      end
  end.

(** ** Arithmetic of mixed [int]/[float] expressions *)

(** [float(n)] for an [int] [n]. *)
Definition of_int (n : Z) : Q := inject_Z n.

(** [a / b] on two [int]s: true division. *)
Definition truediv (a b : Z) : Q := of_int a / of_int b.

(** [a >= b] on floats. *)
Definition ge_float (a b : Q) : bool := Qle_bool b a.

(** ** The calculations *)

Definition calculate_memory_usage (model_size : ModelSize) (tokens : Z)
    (batch_size : Z) (hardware_type : HardwareType) : Q :=
  let specs := model_specs model_size in
  let model_memory_gb := truediv (parameters specs * 2) (1024 ^ 3) in
  let kv_cache_bytes :=
    (2 * layers specs * heads specs * head_dim specs
     * Z.min tokens (context_length specs) * batch_size * 2)%Z in
  let kv_cache_gb := truediv kv_cache_bytes (1024 ^ 3) in
  let activation_memory_gb :=
    truediv (tokens * parameters specs * 2) (1024 ^ 3) * 0.1 in
  let total_memory := model_memory_gb + kv_cache_gb + activation_memory_gb in
  total_memory * 1.2.

Definition calculate_latency (model_size : ModelSize) (tokens : Z)
    (batch_size : Z) (hardware_type : HardwareType)
    (deployment_mode : DeploymentMode) : Q :=
  if DeploymentMode_beq deployment_mode API then
    let base_latency := 2.0 in
    let processing_time := truediv tokens 50 in
    base_latency + processing_time
  else
    let specs := model_specs model_size in
    let hardware := hardware_specs hardware_type in
    let tokens_per_sec := performance_baselines model_size hardware_type in
    let compute_time := of_int tokens / tokens_per_sec in
    let memory_overhead := 0.1 in
    compute_time * (1 + memory_overhead).

Definition calculate_cost (model_size : ModelSize) (tokens : Z)
    (batch_size : Z) (hardware_type : HardwareType)
    (deployment_mode : DeploymentMode) : Q :=
  if DeploymentMode_beq deployment_mode API then
    let pricing := api_pricing model_size in
    let input_tokens := of_int tokens * 0.7 in
    let output_tokens := of_int tokens * 0.3 in
    let input_cost := (input_tokens / 1000) * input pricing in
    let output_cost := (output_tokens / 1000) * output pricing in
    input_cost + output_cost
  else
    let hardware := hardware_specs hardware_type in
    let latency :=
      calculate_latency model_size tokens batch_size hardware_type
        deployment_mode in
    let hardware_cost_per_hour := cost_usd hardware / of_int (3 * 365 * 8) in
    let electricity_cost_per_hour := (power_watts hardware / 1000) * 0.12 in
    let total_cost_per_hour :=
      hardware_cost_per_hour + electricity_cost_per_hour in
    let cost_per_request := (total_cost_per_hour / 3600) * latency in
    cost_per_request.

Definition check_hardware_compatibility (model_size : ModelSize)
    (hardware_type : HardwareType) : bool :=
  if HardwareType_beq hardware_type CPU then true
  else
    let required_memory :=
      calculate_memory_usage model_size 2048 1 hardware_type in
    let available_memory := vram_gb (hardware_specs hardware_type) in
    ge_float available_memory required_memory.

(** [recommendations.append(s)]. *)
Definition append (recs : list string) (s : string) : list string :=
  recs ++ [s].

Definition generate_recommendations (model_size : ModelSize) (tokens : Z)
    (batch_size : Z) (hardware_type : HardwareType)
    (deployment_mode : DeploymentMode) : list string :=
  let recs := [] in
  let recs :=
    if DeploymentMode_beq deployment_mode LOCAL then
      let recs :=
        if negb (check_hardware_compatibility model_size hardware_type)
        then append recs "Hardware incompatible - consider GPU with more VRAM"
        else recs in
      let recs :=
        if HardwareType_beq hardware_type CPU
           && negb (ModelSize_beq model_size SEVEN_B)
        then append recs "CPU inference will be very slow for this model size"
        else recs in
      if (2048 <? tokens)%Z
      then append recs "Long sequences may cause memory issues"
      else recs
    else if DeploymentMode_beq deployment_mode API then
      let recs :=
        if ModelSize_beq model_size GPT4 && (1000 <? tokens)%Z
        then append recs "GPT-4 costs can be high for long sequences"
        else recs in
      if (1 <? batch_size)%Z
      then append recs "API deployment typically doesn't support batching"
      else recs
    else recs in
  let recs :=
    if (4 <? batch_size)%Z
    then append recs "Large batch sizes may cause memory issues"
    else recs in
  if (4096 <? tokens)%Z
  then append recs "Consider chunking long sequences"
  else recs.

Definition calculate (model_size : string) (tokens : Z) (batch_size : Z)
    (hardware_type : string) (deployment_mode : string)
    : M CalculationResult :=
  enums <-
    try_except
      (model_enum <- by_value (A := ModelSize) model_size ;;
       hardware_enum <- by_value (A := HardwareType) hardware_type ;;
       deployment_enum <- by_value (A := DeploymentMode) deployment_mode ;;
       ret (model_enum, hardware_enum, deployment_enum))
      (fun e => raise (Wrapped "Invalid input parameter: " e)) ;;
  let '(model_enum, hardware_enum, deployment_enum) := enums in
  (if (tokens <=? 0)%Z then raise (Message "Tokens must be positive")
   else ret tt) ;;;
  (if (batch_size <=? 0)%Z then raise (Message "Batch size must be positive")
   else ret tt) ;;;
  let memory_usage :=
    calculate_memory_usage model_enum tokens batch_size hardware_enum in
  let latency :=
    calculate_latency model_enum tokens batch_size hardware_enum
      deployment_enum in
  let cost :=
    calculate_cost model_enum tokens batch_size hardware_enum
      deployment_enum in
  let hardware_compatible :=
    check_hardware_compatibility model_enum hardware_enum in
  let recommendations :=
    generate_recommendations model_enum tokens batch_size hardware_enum
      deployment_enum in
  ret {| latency_seconds := latency;
         memory_usage_gb := memory_usage;
         cost_per_request_usd := cost;
         hardware_compatible := hardware_compatible;
         recommendations := recommendations |}.

(** ** The calculations, with the exceptions of the conversion to [float]

    CPython computes [a / b] on two [int]s as the correctly rounded
    quotient and raises [OverflowError] when that is not a finite double;
    an [int] operand of a mixed operation ([n * 0.7], [n / 0.1]) is first
    converted to [float], which raises [OverflowError] in the same way.
    Rounding is to nearest, ties to even: with the largest double
    2^1024 - 2^971, a magnitude rounds to a finite double exactly when it is
    below 2^1024 - 2^970.  A sum or product of two floats never raises (it
    becomes [inf]). *)

Inductive Exception : Set :=
| AValueError (e : ValueError)
| OverflowError (text : string)
| ZeroDivisionError (text : string).

(** The outcome of a call that can raise any of these. *)
Definition R (A : Type) : Type := (Exception + A)%type.

Definition bindR {A B} (m : R A) (k : A -> R B) : R B :=
  match m with
  | inl e => inl e
  | inr a => k a
  end.

Notation "x <~ m ;; k" := (bindR m (fun x => k))
  (at level 61, m at next level, right associativity).

(** A [ValueError] raised by the code of the first part, as an exception. *)
Definition value_error {A} (m : M A) : R A :=
  match m with
  | inl e => inl (AValueError e)
  | inr a => inr a
  end.

Module Checked.

(** The least magnitude that does not round to a finite double. *)
Definition float_overflow : Z := 2 ^ 1024 - 2 ^ 970.

(** [float(n)], as done for the [int] operand of a mixed operation. *)
Definition to_float (n : Z) : R Q :=
  if (float_overflow <=? Z.abs n)%Z
  then inl (OverflowError "int too large to convert to float")
  else inr (of_int n).

(** [a / b] on two [int]s. *)
Definition truediv (a b : Z) : R Q :=
  if (b =? 0)%Z then inl (ZeroDivisionError "division by zero")
  else if (float_overflow * Z.abs b <=? Z.abs a)%Z
  then inl (OverflowError "integer division result too large for a float")
  else inr (of_int a / of_int b).

(** [n / x] for an [int] [n] and an entry [x] of [performance_baselines]:
    the entries written without a fractional part are [int]s, the division
    is then [int / int]; the others are [float]s, and [n] is converted
    first. *)
Definition truediv_entry (n : Z) (x : Q) : R Q :=
  if (Zpos (Qden x) =? 1)%Z then truediv n (Qnum x)
  else f <~ to_float n ;; inr (f / x).

Definition calculate_memory_usage (model_size : ModelSize) (tokens : Z)
    (batch_size : Z) (hardware_type : HardwareType) : R Q :=
  let specs := model_specs model_size in
  model_memory_gb <~ truediv (parameters specs * 2) (1024 ^ 3) ;;
  let kv_cache_bytes :=
    (2 * layers specs * heads specs * head_dim specs
     * Z.min tokens (context_length specs) * batch_size * 2)%Z in
  kv_cache_gb <~ truediv kv_cache_bytes (1024 ^ 3) ;;
  activation_gb <~ truediv (tokens * parameters specs * 2) (1024 ^ 3) ;;
  let activation_memory_gb := activation_gb * 0.1 in
  let total_memory := model_memory_gb + kv_cache_gb + activation_memory_gb in
  inr (total_memory * 1.2).

Definition calculate_latency (model_size : ModelSize) (tokens : Z)
    (batch_size : Z) (hardware_type : HardwareType)
    (deployment_mode : DeploymentMode) : R Q :=
  if DeploymentMode_beq deployment_mode API then
    let base_latency := 2.0 in
    processing_time <~ truediv tokens 50 ;;
    inr (base_latency + processing_time)
  else
    let specs := model_specs model_size in
    let hardware := hardware_specs hardware_type in
    let tokens_per_sec := performance_baselines model_size hardware_type in
    compute_time <~ truediv_entry tokens tokens_per_sec ;;
    let memory_overhead := 0.1 in
    inr (compute_time * (1 + memory_overhead)).

(** The hourly rate divides table constants only. *)
Definition calculate_cost (model_size : ModelSize) (tokens : Z)
    (batch_size : Z) (hardware_type : HardwareType)
    (deployment_mode : DeploymentMode) : R Q :=
  if DeploymentMode_beq deployment_mode API then
    let pricing := api_pricing model_size in
    tokens_in <~ to_float tokens ;;
    let input_tokens := tokens_in * 0.7 in
    tokens_out <~ to_float tokens ;;
    let output_tokens := tokens_out * 0.3 in
    let input_cost := (input_tokens / 1000) * input pricing in
    let output_cost := (output_tokens / 1000) * output pricing in
    inr (input_cost + output_cost)
  else
    let hardware := hardware_specs hardware_type in
    latency <~ calculate_latency model_size tokens batch_size hardware_type
                 deployment_mode ;;
    let hardware_cost_per_hour := cost_usd hardware / of_int (3 * 365 * 8) in
    let electricity_cost_per_hour := (power_watts hardware / 1000) * 0.12 in
    let total_cost_per_hour :=
      hardware_cost_per_hour + electricity_cost_per_hour in
    let cost_per_request := (total_cost_per_hour / 3600) * latency in
    inr cost_per_request.

Definition check_hardware_compatibility (model_size : ModelSize)
    (hardware_type : HardwareType) : R bool :=
  if HardwareType_beq hardware_type CPU then inr true
  else
    required_memory <~
      calculate_memory_usage model_size 2048 1 hardware_type ;;
    let available_memory := vram_gb (hardware_specs hardware_type) in
    inr (ge_float available_memory required_memory).

Definition generate_recommendations (model_size : ModelSize) (tokens : Z)
    (batch_size : Z) (hardware_type : HardwareType)
    (deployment_mode : DeploymentMode) : R (list string) :=
  let recs := [] in
  recs <~
    (if DeploymentMode_beq deployment_mode LOCAL then
       compatible <~ check_hardware_compatibility model_size hardware_type ;;
       let recs :=
         if negb compatible
         then append recs "Hardware incompatible - consider GPU with more VRAM"
         else recs in
       let recs :=
         if HardwareType_beq hardware_type CPU
            && negb (ModelSize_beq model_size SEVEN_B)
         then append recs "CPU inference will be very slow for this model size"
         else recs in
       inr (if (2048 <? tokens)%Z
            then append recs "Long sequences may cause memory issues"
            else recs)
     else if DeploymentMode_beq deployment_mode API then
       let recs :=
         if ModelSize_beq model_size GPT4 && (1000 <? tokens)%Z
         then append recs "GPT-4 costs can be high for long sequences"
         else recs in
       inr (if (1 <? batch_size)%Z
            then append recs "API deployment typically doesn't support batching"
            else recs)
     else inr recs) ;;
  let recs :=
    if (4 <? batch_size)%Z
    then append recs "Large batch sizes may cause memory issues"
    else recs in
  inr (if (4096 <? tokens)%Z
       then append recs "Consider chunking long sequences"
       else recs).

Definition calculate (model_size : string) (tokens : Z) (batch_size : Z)
    (hardware_type : string) (deployment_mode : string)
    : R CalculationResult :=
  enums <~
    value_error
      (try_except
         (model_enum <- by_value (A := ModelSize) model_size ;;
          hardware_enum <- by_value (A := HardwareType) hardware_type ;;
          deployment_enum <- by_value (A := DeploymentMode) deployment_mode ;;
          ret (model_enum, hardware_enum, deployment_enum))
         (fun e => raise (Wrapped "Invalid input parameter: " e))) ;;
  let '(model_enum, hardware_enum, deployment_enum) := enums in
  _ <~ (if (tokens <=? 0)%Z
        then inl (AValueError (Message "Tokens must be positive"))
        else inr tt) ;;
  _ <~ (if (batch_size <=? 0)%Z
        then inl (AValueError (Message "Batch size must be positive"))
        else inr tt) ;;
  memory_usage <~
    calculate_memory_usage model_enum tokens batch_size hardware_enum ;;
  latency <~
    calculate_latency model_enum tokens batch_size hardware_enum
      deployment_enum ;;
  cost <~
    calculate_cost model_enum tokens batch_size hardware_enum
      deployment_enum ;;
  hardware_compatible <~
    check_hardware_compatibility model_enum hardware_enum ;;
  recommendations <~
    generate_recommendations model_enum tokens batch_size hardware_enum
      deployment_enum ;;
  inr {| latency_seconds := latency;
         memory_usage_gb := memory_usage;
         cost_per_request_usd := cost;
         hardware_compatible := hardware_compatible;
         recommendations := recommendations |}.

(** The two divisions of [calculate_memory_usage] whose numerator grows
    with the request: whether one of them is beyond the range. *)
Definition kv_cache_bytes (m : ModelSize) (tokens batch_size : Z) : Z :=
  let specs := model_specs m in
  2 * layers specs * heads specs * head_dim specs
  * Z.min tokens (context_length specs) * batch_size * 2.

Definition activation_bytes (m : ModelSize) (tokens : Z) : Z :=
  tokens * parameters (model_specs m) * 2.

Definition too_large (m : ModelSize) (tokens batch_size : Z) : bool :=
  (float_overflow * 1024 ^ 3 <=? Z.abs (kv_cache_bytes m tokens batch_size))%Z
  || (float_overflow * 1024 ^ 3 <=? Z.abs (activation_bytes m tokens))%Z.

(** A bound on tokens and batch size under which neither is. *)
Definition request_bound : Z := 10 ^ 300.

(** A bound under which the products formed from a result by the callers
    (with a number of requests under the same bound) stay finite. *)
Definition workload_bound : Z := 10 ^ 100.

End Checked.

(** The message of the [OverflowError] of [int / int]. *)
Definition division_overflow : Exception :=
  OverflowError "integer division result too large for a float".

(** ** The specification's tables and formulas

    Second definitions, written from the specification's words (the tables
    of section 4.1, the memory formula of 4.2, the rules of 4.6 and the
    vocabularies of section 6), to be compared with the code above. *)

Module Spec.

(** Canonical per-model constants (table of section 4.1). *)
Definition Params (m : ModelSize) : Q :=
  match m with SEVEN_B => 7.3e9 | THIRTEEN_B => 1.3e10 | GPT4 => 1.76e12 end.
Definition Layers (m : ModelSize) : Q :=
  match m with SEVEN_B => 32 | THIRTEEN_B => 40 | GPT4 => 96 end.
Definition Heads (m : ModelSize) : Q :=
  match m with SEVEN_B => 32 | THIRTEEN_B => 40 | GPT4 => 96 end.
Definition HeadDim (m : ModelSize) : Q :=
  match m with SEVEN_B => 128 | THIRTEEN_B => 128 | GPT4 => 128 end.
Definition Ctx (m : ModelSize) : Z :=
  match m with SEVEN_B => 8192 | THIRTEEN_B => 4096 | GPT4 => 8192 end.

(** The three byte counts of section 4.2; [kv] takes the token count that
    enters the KV cache. *)
Definition modelMemory (m : ModelSize) : Q := Params m * 2.
Definition kvCacheMemory (m : ModelSize) (kv_tokens b : Z) : Q :=
  2 * Layers m * Heads m * HeadDim m * of_int kv_tokens * of_int b * 2.
Definition activationMemory (m : ModelSize) (t : Z) : Q :=
  of_int t * Params m * 2 * 0.1.

(** total, in GB. *)
Definition memory_gb (m : ModelSize) (t b : Z) : Q :=
  (modelMemory m + kvCacheMemory m (Z.min t (Ctx m)) b
   + activationMemory m t) / of_int (2 ^ 30) * 1.2.

(** Hardware columns used by the compatibility check and the cost formula
    (table of section 4.1). *)
Definition vramGB (h : HardwareType) : Q :=
  match h with
  | CPU => 0 | GPU_4GB => 4 | GPU_8GB => 8 | GPU_12GB => 12
  | GPU_16GB => 16 | GPU_24GB => 24 | GPU_32GB => 32
  end.
Definition watts (h : HardwareType) : Q :=
  match h with
  | CPU => 65 | GPU_4GB => 75 | GPU_8GB => 220 | GPU_12GB => 320
  | GPU_16GB => 320 | GPU_24GB => 450 | GPU_32GB => 450
  end.
Definition costUSD (h : HardwareType) : Q :=
  match h with
  | CPU => 200 | GPU_4GB => 150 | GPU_8GB => 500 | GPU_12GB => 700
  | GPU_16GB => 1200 | GPU_24GB => 1600 | GPU_32GB => 1600
  end.

(** API prices per 1000 tokens. *)
Definition inputPrice (m : ModelSize) : Q :=
  match m with SEVEN_B => 0 | THIRTEEN_B => 0.0002 | GPT4 => 0.01 end.
Definition outputPrice (m : ModelSize) : Q :=
  match m with SEVEN_B => 0 | THIRTEEN_B => 0.0004 | GPT4 => 0.03 end.

(** Throughput baseline, by model then hardware, in the order
    [CPU, 4GB, 8GB, 12GB, 16GB, 24GB, 32GB]. *)
Definition hardware_index (h : HardwareType) : nat :=
  match h with
  | CPU => 0 | GPU_4GB => 1 | GPU_8GB => 2 | GPU_12GB => 3
  | GPU_16GB => 4 | GPU_24GB => 5 | GPU_32GB => 6
  end.
Definition baseline_row (m : ModelSize) : list Q :=
  match m with
  | SEVEN_B => [3; 8; 15; 25; 35; 45; 50]
  | THIRTEEN_B => [1; 3; 6; 10; 15; 25; 30]
  | GPT4 => repeat 0.1 7
  end.
Definition PerformanceBaseline (m : ModelSize) (h : HardwareType) : Q :=
  nth (hardware_index h) (baseline_row m) 0.

(** Section 4.6: the seven rules in their fixed order, each a condition on
    the request and the string it contributes.  [incompatible] is the
    outcome of the compatibility check of section 4.5 for the request's
    model and hardware. *)
Definition is_LOCAL (d : DeploymentMode) : bool :=
  match d with LOCAL => true | API => false end.
Definition is_API (d : DeploymentMode) : bool :=
  match d with LOCAL => false | API => true end.
Definition is_CPU (h : HardwareType) : bool :=
  match h with CPU => true | _ => false end.
Definition is_7B (m : ModelSize) : bool :=
  match m with SEVEN_B => true | _ => false end.
Definition is_GPT4 (m : ModelSize) : bool :=
  match m with GPT4 => true | _ => false end.

Definition rules (incompatible : bool) (m : ModelSize) (t b : Z)
    (h : HardwareType) (d : DeploymentMode) : list (bool * string) :=
  [ (is_LOCAL d && incompatible,
     "Hardware incompatible - consider GPU with more VRAM");
    (is_LOCAL d && (is_CPU h && negb (is_7B m)),
     "CPU inference will be very slow for this model size");
    (is_LOCAL d && (2048 <? t)%Z,
     "Long sequences may cause memory issues");
    (is_API d && (is_GPT4 m && (1000 <? t)%Z),
     "GPT-4 costs can be high for long sequences");
    (is_API d && (1 <? b)%Z,
     "API deployment typically doesn't support batching");
    ((4 <? b)%Z,
     "Large batch sizes may cause memory issues");
    ((4096 <? t)%Z,
     "Consider chunking long sequences") ].

(** Every rule is evaluated; the strings of those that hold are kept, in
    order. *)
Definition fired (rs : list (bool * string)) : list string :=
  map snd (filter fst rs).

(** Section 6: the closed string vocabularies. *)
Definition models : list string := ["7B"; "13B"; "GPT-4"].
Definition hardwares : list string :=
  ["CPU"; "GPU_4GB"; "GPU_8GB"; "GPU_12GB"; "GPU_16GB"; "GPU_24GB";
   "GPU_32GB"].
Definition deployments : list string := ["local"; "api"].

End Spec.

(** ** The same formulas in IEEE binary64

    A cross-check of the two scenarios where the code departs from its
    specification: the memory formula, the LOCAL latency and the
    compatibility check evaluated with the kernel's binary64 floats, as
    CPython evaluates them.  [of_int] is defined for the integers from 0 to
    2^53 - 1, which a double holds exactly; for such operands the quotient of
    the two converted integers is the correctly rounded quotient that
    [int / int] returns.  A decimal literal is the double nearest to it,
    which [of_Q] yields for the literals of this program.  Outside that
    range the functions give no answer ([None]); the lemmas use them on
    closed inputs within it. *)

Module Binary64.

Definition of_int (n : Z) : option float :=
  if ((0 <=? n) && (n <? 2 ^ 53))%Z
  then Some (PrimFloat.of_uint63 (Uint63.of_Z n))
  else None.

Definition lift2 (op : float -> float -> float) (x y : option float)
    : option float :=
  match x, y with
  | Some a, Some b => Some (op a b)
  | _, _ => None
  end.

Definition truediv (a b : Z) : option float :=
  lift2 PrimFloat.div (of_int a) (of_int b).

Definition of_Q (q : Q) : option float := truediv (Qnum q) (Zpos (Qden q)).

Definition calculate_memory_usage (model_size : ModelSize) (tokens : Z)
    (batch_size : Z) (hardware_type : HardwareType) : option float :=
  let specs := model_specs model_size in
  let model_memory_gb := truediv (parameters specs * 2) (1024 ^ 3) in
  let kv_cache_bytes :=
    (2 * layers specs * heads specs * head_dim specs
     * Z.min tokens (context_length specs) * batch_size * 2)%Z in
  let kv_cache_gb := truediv kv_cache_bytes (1024 ^ 3) in
  let activation_memory_gb :=
    lift2 PrimFloat.mul
      (truediv (tokens * parameters specs * 2) (1024 ^ 3)) (of_Q 0.1) in
  let total_memory :=
    lift2 PrimFloat.add (lift2 PrimFloat.add model_memory_gb kv_cache_gb)
      activation_memory_gb in
  lift2 PrimFloat.mul total_memory (of_Q 1.2).

Definition calculate_latency_local (model_size : ModelSize) (tokens : Z)
    (batch_size : Z) (hardware_type : HardwareType) : option float :=
  let tokens_per_sec :=
    of_Q (performance_baselines model_size hardware_type) in
  let compute_time := lift2 PrimFloat.div (of_int tokens) tokens_per_sec in
  let memory_overhead := of_Q 0.1 in
  lift2 PrimFloat.mul compute_time
    (lift2 PrimFloat.add (of_int 1) memory_overhead).

Definition check_hardware_compatibility (model_size : ModelSize)
    (hardware_type : HardwareType) : option bool :=
  if HardwareType_beq hardware_type CPU then Some true
  else
    let required_memory :=
      calculate_memory_usage model_size 2048 1 hardware_type in
    let available_memory := of_Q (vram_gb (hardware_specs hardware_type)) in
    match required_memory, available_memory with
    | Some required, Some available =>
        Some (PrimFloat.leb required available)
    | _, _ => None
    end.

(** [a < b], when both are defined. *)
Definition ltb (x y : option float) : option bool :=
  match x, y with
  | Some a, Some b => Some (PrimFloat.ltb a b)
  | _, _ => None
  end.

End Binary64.

(** ** Results and outcomes of [calculate] *)

(** The result [calculate] assembles once validation has passed. *)
Definition assembled (m : ModelSize) (t b : Z) (h : HardwareType)
    (d : DeploymentMode) : CalculationResult :=
  {| latency_seconds := calculate_latency m t b h d;
     memory_usage_gb := calculate_memory_usage m t b h;
     cost_per_request_usd := calculate_cost m t b h d;
     hardware_compatible := check_hardware_compatibility m h;
     recommendations := generate_recommendations m t b h d |}.

Definition invalid_input (e : ValueError) : ValueError :=
  Wrapped "Invalid input parameter: " e.

(** The six ways a call of [calculate] can end, in the order the code
    tests them. *)
Inductive outcome (ms : string) (t b : Z) (hs ds : string)
  : M CalculationResult -> Prop :=
| bad_model :
    ~ In ms Spec.models ->
    outcome ms t b hs ds
      (inl (invalid_input (EnumValueError ms "ModelSize")))
| bad_hardware :
    In ms Spec.models -> ~ In hs Spec.hardwares ->
    outcome ms t b hs ds
      (inl (invalid_input (EnumValueError hs "HardwareType")))
| bad_deployment :
    In ms Spec.models -> In hs Spec.hardwares -> ~ In ds Spec.deployments ->
    outcome ms t b hs ds
      (inl (invalid_input (EnumValueError ds "DeploymentMode")))
| bad_tokens :
    In ms Spec.models -> In hs Spec.hardwares -> In ds Spec.deployments ->
    (t <= 0)%Z ->
    outcome ms t b hs ds (inl (Message "Tokens must be positive"))
| bad_batch_size :
    In ms Spec.models -> In hs Spec.hardwares -> In ds Spec.deployments ->
    (0 < t)%Z -> (b <= 0)%Z ->
    outcome ms t b hs ds (inl (Message "Batch size must be positive"))
| computed (m : ModelSize) (h : HardwareType) (d : DeploymentMode) :
    ms = value m -> hs = value h -> ds = value d ->
    In ms Spec.models -> In hs Spec.hardwares -> In ds Spec.deployments ->
    (0 < t)%Z -> (0 < b)%Z ->
    outcome ms t b hs ds (inr (assembled m t b h d)).

(** * Callers of the engine: [scenario_testing.py] and
    [examples/advanced_analysis.py]

    The functions below build their reports from results of [calculate].
    What they print is not modelled; what they return is.  A dict with a
    fixed set of keys is a record, and a dict that has one of two shapes is
    an inductive type with two constructors. *)

(** [a < b] on floats. *)
Definition lt_float (a b : Q) : bool := negb (Qle_bool b a).

(** [a <= b] on floats. *)
Definition le_float (a b : Q) : bool := Qle_bool a b.

(** [min(first, *rest, key=key)]: the first of the smallest elements.
    CPython replaces the current best only by an element that compares
    strictly smaller. *)
Fixpoint min_with {A : Type} (key : A -> Q) (best : A) (rest : list A) : A :=
  match rest with
  | [] => best
  | x :: rest' =>
      min_with key (if lt_float (key x) (key best) then x else best) rest'
  end.

(** [max(first, *rest, key=key)]: the first of the largest elements. *)
Fixpoint max_with {A : Type} (key : A -> Q) (best : A) (rest : list A) : A :=
  match rest with
  | [] => best
  | x :: rest' =>
      max_with key (if lt_float (key best) (key x) then x else best) rest'
  end.

(** The parts an f-string is built from.  Text, with interpolated strings
    already spliced in, is kept as a string; a number is kept as the number
    and its format: [Fixed n x] stands for [{x:.nf}], [Plain x] for [{x}] on
    a float and [Int n] for [{n}] on an int.  How a number is rendered as
    digits is not modelled. *)
Inductive piece : Type :=
| Lit (s : string)
| Fixed (digits : nat) (x : Q)
| Plain (x : Q)
| Int (n : Z).

Definition fstring : Type := list piece.

(** [l.append(x)]. *)
Definition add {A : Type} (l : list A) (x : A) : list A := (l ++ [x])%list.

Module ScenarioTester.

(** An element of [results] in [test_scenario_1_local_deployment]: the dict
    built from a result, with keys "hardware", "latency_seconds",
    "memory_gb", "cost_usd", "compatible" and "recommendations". *)
Record row : Type := {
  row_hardware : string;
  row_latency_seconds : Q;
  row_memory_gb : Q;
  row_cost_usd : Q;
  row_compatible : bool;
  row_recommendations : list string
}.

(** The other shape is the dict of the [except Exception] branch, with keys
    "hardware" and "error". *)
Inductive entry : Type :=
| Measured (r : row)
| Failed (hardware : string) (error : Exception).

(** The body of the loop over [hardware_configs], for a scenario with the
    given "model", "tokens", "batch_size" and "deployment". *)
Definition run_hardware (model : string) (tokens batch_size : Z)
    (deployment : string) (hardware : string) : entry :=
  match Checked.calculate model tokens batch_size hardware deployment with
  | inr result =>
      Measured {| row_hardware := hardware;
                  row_latency_seconds := latency_seconds result;
                  row_memory_gb := memory_usage_gb result;
                  row_cost_usd := cost_per_request_usd result;
                  row_compatible := hardware_compatible result;
                  row_recommendations := recommendations result |}
  | inl e => Failed hardware e
  end.

(** [[r for r in results if r.get("compatible", False) and "error" not in
    r]]: an entry of the second shape has no key "compatible". *)
Fixpoint compatible_results (results : list entry) : list row :=
  match results with
  | [] => []
  | Measured r :: results' =>
      if row_compatible r then r :: compatible_results results'
      else compatible_results results'
  | Failed _ _ :: results' => compatible_results results'
  end.

(** The dict returned by [_analyze_local_scenario], in its two shapes. *)
Inductive local_summary : Type :=
| NoCompatible (status : string) (recommendations : list string)
| Compatible (status : string) (best_performance lowest_cost : string)
    (performance_range cost_range : fstring) (recommendations : list string).

Definition _analyze_local_scenario (results : list entry) : local_summary :=
  match compatible_results results with
  | [] =>
      NoCompatible "No compatible hardware found"
        ["Upgrade to GPU with 16GB+ VRAM"]
  | first :: rest =>
      let best_performance := min_with row_latency_seconds first rest in
      let min_cost := min_with row_cost_usd first rest in
      Compatible "Compatible hardware available"
        (row_hardware best_performance)
        (row_hardware min_cost)
        [Fixed 1 (min_with id (row_latency_seconds first)
                    (map row_latency_seconds rest));
         Lit "-";
         Fixed 1 (max_with id (row_latency_seconds first)
                    (map row_latency_seconds rest));
         Lit "s"]
        [Lit "$";
         Fixed 6 (min_with id (row_cost_usd first) (map row_cost_usd rest));
         Lit "-$";
         Fixed 6 (max_with id (row_cost_usd first) (map row_cost_usd rest))]
        ["Use " ++ row_hardware best_performance ++ " for best performance";
         "Use " ++ row_hardware min_cost ++ " for lowest cost";
         "Consider hardware investment for production use"]
  end.

(** [test_scenario_1_local_deployment]: the keys "results" and "summary" of
    the returned dict ("scenario" is the constant [scenario_config]). *)
Definition hardware_configs : list string :=
  ["CPU"; "GPU_4GB"; "GPU_8GB"; "GPU_12GB"; "GPU_16GB"; "GPU_24GB";
   "GPU_32GB"].

Definition test_scenario_1_local_deployment
    : list entry * local_summary :=
  let results := map (run_hardware "7B" 1000 1 "local") hardware_configs in
  (results, _analyze_local_scenario results).

(** The dict returned by [_analyze_api_scenario]. *)
Record api_summary : Type := {
  api_status : string;
  api_tokens_per_second : fstring;
  api_cost_per_1000_tokens : fstring;
  api_recommendations : list string
}.

Definition _analyze_api_scenario (result : CalculationResult)
    (model_name : string) : api_summary :=
  let tokens_per_second :=
    if lt_float 0 (latency_seconds result)
    then 1000 / latency_seconds result
    else 0 in
  {| api_status := "API deployment viable";
     api_tokens_per_second := [Fixed 1 tokens_per_second];
     api_cost_per_1000_tokens :=
       [Lit "$";
        Fixed 6 (cost_per_request_usd result * truediv 1000 500)];
     api_recommendations :=
       [model_name ++ " API suitable for production workloads";
        "Monitor costs and implement rate limiting";
        "Consider caching for repeated requests"] |}.

(** An element of [comparison_data]. *)
Record comparison : Type := {
  scenario : string;
  latency_per_1000_tokens : Q;
  cost_per_1000_tokens : Q;
  deployment_type : string;
  hardware_requirement : string
}.

(** A list is true when it is not empty. *)
Definition nonempty {A : Type} (l : list A) : bool :=
  match l with [] => false | _ :: _ => true end.

Definition _generate_recommendations (comparison_data : list comparison)
    : list fstring :=
  let recommendations := [] in
  match comparison_data with
  | [] => [[Lit "No valid comparison data available"]]
  | first :: rest =>
      let best_cost := min_with cost_per_1000_tokens first rest in
      let best_latency := min_with latency_per_1000_tokens first rest in
      let recommendations :=
        add recommendations
        [Lit ("Best cost option: " ++ scenario best_cost ++ " ($");
         Fixed 6 (cost_per_1000_tokens best_cost);
         Lit " per 1000 tokens)"] in
      let recommendations :=
        add recommendations
        [Lit ("Best performance: " ++ scenario best_latency ++ " (");
         Fixed 1 (latency_per_1000_tokens best_latency);
         Lit "s per 1000 tokens)"] in
      let local_options :=
        filter (fun d => String.eqb (deployment_type d) "Local")
          comparison_data in
      let api_options :=
        filter (fun d => String.eqb (deployment_type d) "API")
          comparison_data in
      let recommendations :=
        if nonempty local_options && nonempty api_options
        then add recommendations
             [Lit "Consider hybrid approach: local for development, API for production"]
        else recommendations in
      let recommendations :=
        if nonempty local_options
        then add recommendations
             [Lit "Local deployment requires hardware investment but offers lowest ongoing costs"]
        else recommendations in
      if nonempty api_options
      then add recommendations
           [Lit "API deployment offers scalability but incurs ongoing costs"]
      else recommendations
  end.

End ScenarioTester.

Module AdvancedAnalyzer.

(** A value of the [strategies] dict. *)
Record strategy : Type := {
  name : string;
  model : string;
  deployment : string;
  hardware : string
}.

Definition strategies : list (string * strategy) :=
  [ ("local_7b", {| name := "Mistral 7B (Local)"; model := "7B";
                    deployment := "local"; hardware := "GPU_16GB" |});
    ("api_13b", {| name := "LangChain 13B (API)"; model := "13B";
                   deployment := "api"; hardware := "GPU_8GB" |});
    ("api_gpt4", {| name := "GPT-4 (API)"; model := "GPT-4";
                    deployment := "api"; hardware := "GPU_8GB" |}) ].

(** A value of the [results] dict, its nested dicts flattened: "strategy",
    "per_request" ("latency", "cost", "memory"), "daily" ("cost",
    "processing_time_hours", "requests_per_hour"), "monthly" ("cost"),
    "yearly" ("cost"), "compatible", "recommendations".  "memory" is a
    float for a local strategy and the string "N/A" otherwise. *)
Record analysis : Type := {
  strategy_name : string;
  per_request_latency : Q;
  per_request_cost : Q;
  per_request_memory : Q + string;
  daily_cost : Q;
  daily_processing_time_hours : Q;
  daily_requests_per_hour : Q;
  monthly_cost : Q;
  yearly_cost : Q;
  compatible : bool;
  analysis_recommendations : list string
}.

(** The dict stored for a strategy once [calculate] has returned
    [result].  [requests_per_day] is an [int]: it is converted to [float]
    where it multiplies a float, and divided as an [int] by 24. *)
Definition analysis_of (requests_per_day : Z) (s : strategy)
    (result : CalculationResult) : R analysis :=
  requests <~ Checked.to_float requests_per_day ;;
  let daily_cost := cost_per_request_usd result * requests in
  let monthly_cost := daily_cost * 30 in
  let yearly_cost := daily_cost * 365 in
  requests' <~ Checked.to_float requests_per_day ;;
  let total_daily_time := latency_seconds result * requests' in
  let total_daily_time_hours := total_daily_time / 3600 in
  requests_per_hour <~ Checked.truediv requests_per_day 24 ;;
  inr {| strategy_name := name s;
         per_request_latency := latency_seconds result;
         per_request_cost := cost_per_request_usd result;
         per_request_memory :=
           if String.eqb (deployment s) "local"
           then inl (memory_usage_gb result) else inr "N/A";
         daily_cost := daily_cost;
         daily_processing_time_hours := total_daily_time_hours;
         daily_requests_per_hour := requests_per_hour;
         monthly_cost := monthly_cost;
         yearly_cost := yearly_cost;
         compatible := hardware_compatible result;
         analysis_recommendations := recommendations result |}.

(** The body of the loop over [strategies.items()]; [calculate] is called
    with the default batch size 1 and outside any [try]. *)
Definition analyze_strategy (tokens requests_per_day : Z) (s : strategy)
    : R analysis :=
  result <~ Checked.calculate (model s) tokens 1 (hardware s)
              (deployment s) ;;
  analysis_of requests_per_day s result.

(** The loop: the first failing strategy ends it. *)
Fixpoint analyze_all (tokens requests_per_day : Z)
    (items : list (string * strategy)) : R (list (string * analysis)) :=
  match items with
  | [] => inr []
  | (key, s) :: items' =>
      a <~ analyze_strategy tokens requests_per_day s ;;
      results <~ analyze_all tokens requests_per_day items' ;;
      inr ((key, a) :: results)
  end.

Definition analyze_deployment_strategies (tokens requests_per_day : Z)
    : R (list (string * analysis)) :=
  analyze_all tokens requests_per_day strategies.

(** [k.lower()] on an ASCII string. *)
Definition lower_ascii (c : Ascii.ascii) : Ascii.ascii :=
  let n := Ascii.nat_of_ascii c in
  if (65 <=? n)%nat && (n <=? 90)%nat then Ascii.ascii_of_nat (n + 32)
  else c.

Fixpoint lower (s : string) : string :=
  match s with
  | EmptyString => EmptyString
  | String c s' => String (lower_ascii c) (lower s')
  end.

(** [sub in s]. *)
Definition contains (sub s : string) : bool :=
  match String.index 0 sub s with Some _ => true | None => false end.

(** [generate_recommendations(results, budget)]; [None] is the
    [ValueError] that [min] raises on an empty [results]. *)
Definition generate_recommendations (results : list (string * analysis))
    (budget : Q) : option (list fstring) :=
  let recommendations := [] in
  match map snd results with
  | [] => None
  | first :: rest =>
      let best_cost := min_with monthly_cost first rest in
      let best_performance := min_with per_request_latency first rest in
      let recommendations :=
        add recommendations
        [Lit ("Best cost option: " ++ strategy_name best_cost ++ " ($");
         Fixed 2 (monthly_cost best_cost);
         Lit "/month)"] in
      let recommendations :=
        add recommendations
        [Lit ("Best performance: " ++ strategy_name best_performance
                  ++ " (");
             Fixed 1 (per_request_latency best_performance);
             Lit "s)"] in
      let affordable_options :=
        map fst
          (filter (fun kv => le_float (monthly_cost (snd kv)) budget)
             results) in
      let recommendations :=
        if ScenarioTester.nonempty affordable_options
        then add recommendations
             [Lit "Options within $"; Plain budget;
              Lit "/month budget: ";
              Int (Z.of_nat (List.length affordable_options))]
        else add recommendations
             [Lit "⚠️  All options exceed $"; Plain budget;
              Lit "/month budget"] in
      let local_options :=
        filter (fun kv => contains "local" (lower (fst kv))) results in
      let api_options :=
        filter (fun kv => contains "api" (lower (fst kv))) results in
      Some
        (if ScenarioTester.nonempty local_options
            && ScenarioTester.nonempty api_options
         then add recommendations
              [Lit "Consider hybrid approach: local for development, API for production"]
         else recommendations)
  end.

End AdvancedAnalyzer.

(** The dict [analysis_of] stores when none of its conversions raises. *)
Definition stored_analysis (requests_per_day : Z)
    (s : AdvancedAnalyzer.strategy) (result : CalculationResult)
    : AdvancedAnalyzer.analysis :=
  let daily_cost := cost_per_request_usd result * of_int requests_per_day in
  {| AdvancedAnalyzer.strategy_name := AdvancedAnalyzer.name s;
     AdvancedAnalyzer.per_request_latency := latency_seconds result;
     AdvancedAnalyzer.per_request_cost := cost_per_request_usd result;
     AdvancedAnalyzer.per_request_memory :=
       if String.eqb (AdvancedAnalyzer.deployment s) "local"
       then inl (memory_usage_gb result) else inr "N/A";
     AdvancedAnalyzer.daily_cost := daily_cost;
     AdvancedAnalyzer.daily_processing_time_hours :=
       latency_seconds result * of_int requests_per_day / 3600;
     AdvancedAnalyzer.daily_requests_per_hour := truediv requests_per_day 24;
     AdvancedAnalyzer.monthly_cost := daily_cost * 30;
     AdvancedAnalyzer.yearly_cost := daily_cost * 365;
     AdvancedAnalyzer.compatible := hardware_compatible result;
     AdvancedAnalyzer.analysis_recommendations := recommendations result |}.

(** * The calculator checks of [success_criteria_verification.py]

    Criteria 2 and 3 run [calculate] over a table of cases and return
    whether every case met its expectation; [passed] is threaded through the
    loop.  (Criteria 4 to 6 read files and are not modelled.) *)

Module SuccessCriteriaVerifier.

(** One iteration of the loop of [test_criterion_2_hardware_compatibility]
    on a case [(hardware, expected, description)]: the new [passed]. *)
Definition check_compatibility_case (passed : bool)
    (case : string * bool * string) : bool :=
  let '(hardware, expected, description) := case in
  match calculate "7B" 1000 1 hardware "local" with
  | inr result =>
      let actual := hardware_compatible result in
      if negb (Bool.eqb actual expected) then false else passed
  | inl _ => false
  end.

Definition criterion_2_loop (test_cases : list (string * bool * string))
    : bool :=
  fold_left check_compatibility_case test_cases true.

Definition criterion_2_test_cases : list (string * bool * string) :=
  [ ("CPU", true, "CPU should always be compatible");
    ("GPU_4GB", false, "4GB GPU insufficient for 7B model");
    ("GPU_8GB", false, "8GB GPU insufficient for 7B model");
    ("GPU_16GB", true, "16GB GPU should be compatible");
    ("GPU_24GB", true, "24GB GPU should be compatible");
    ("GPU_32GB", true, "32GB GPU should be compatible") ].

Definition test_criterion_2_hardware_compatibility : bool :=
  criterion_2_loop criterion_2_test_cases.

(** A case of [test_criterion_3_cost_calculations]. *)
Record cost_case : Type := {
  case_model : string;
  case_deployment : string;
  case_hardware : string;
  expected_cost_range : Q * Q
}.

(** One iteration of its loop: the new [passed]. *)
Definition check_cost_case (passed : bool) (test_case : cost_case) : bool :=
  match calculate (case_model test_case) 1000 1 (case_hardware test_case)
          (case_deployment test_case) with
  | inr result =>
      let cost := cost_per_request_usd result in
      let '(min_expected, max_expected) := expected_cost_range test_case in
      if lt_float cost min_expected || lt_float max_expected cost
      then false else passed
  | inl _ => false
  end.

Definition criterion_3_loop (test_cases : list cost_case) : bool :=
  fold_left check_cost_case test_cases true.

Definition criterion_3_test_cases : list cost_case :=
  [ {| case_model := "7B"; case_deployment := "local";
       case_hardware := "GPU_16GB";
       expected_cost_range := (0.000001, 0.001) |};
    {| case_model := "13B"; case_deployment := "api";
       case_hardware := "GPU_8GB";
       expected_cost_range := (0.0001, 0.01) |};
    {| case_model := "GPT-4"; case_deployment := "api";
       case_hardware := "GPU_8GB";
       expected_cost_range := (0.01, 1.0) |} ].

Definition test_criterion_3_cost_calculations : bool :=
  criterion_3_loop criterion_3_test_cases.

End SuccessCriteriaVerifier.

(** ** Facts about the tables *)

Lemma Params_parameters (m : ModelSize) :
  Spec.Params m == of_int (parameters (model_specs m)).
Proof. destruct m; vm_compute; reflexivity. Qed.

Lemma Layers_layers (m : ModelSize) :
  Spec.Layers m = of_int (layers (model_specs m)).
Proof. destruct m; reflexivity. Qed.

Lemma Heads_heads (m : ModelSize) :
  Spec.Heads m = of_int (heads (model_specs m)).
Proof. destruct m; reflexivity. Qed.

Lemma HeadDim_head_dim (m : ModelSize) :
  Spec.HeadDim m = of_int (head_dim (model_specs m)).
Proof. destruct m; reflexivity. Qed.

Lemma Ctx_context_length (m : ModelSize) :
  Spec.Ctx m = context_length (model_specs m).
Proof. destruct m; reflexivity. Qed.

Lemma PerformanceBaseline_table (m : ModelSize) (h : HardwareType) :
  Spec.PerformanceBaseline m h = performance_baselines m h.
Proof. destruct m, h; reflexivity. Qed.

Lemma performance_baselines_pos (m : ModelSize) (h : HardwareType) :
  0 < performance_baselines m h.
Proof. destruct m, h; reflexivity. Qed.

Lemma hardware_table (h : HardwareType) :
  vram_gb (hardware_specs h) = Spec.vramGB h
  /\ power_watts (hardware_specs h) = Spec.watts h
  /\ cost_usd (hardware_specs h) = Spec.costUSD h.
Proof. destruct h; repeat split. Qed.

Lemma pricing_table (m : ModelSize) :
  input (api_pricing m) == Spec.inputPrice m
  /\ output (api_pricing m) == Spec.outputPrice m.
Proof. destruct m; split; reflexivity. Qed.

Lemma of_int_pos (n : Z) : (0 < n)%Z -> 0 < of_int n.
Proof.
  intros Hn. unfold of_int. change 0 with (inject_Z 0).
  rewrite <- Zlt_Qlt. exact Hn.
Qed.

(** The memory formula with the model's constants kept symbolic: the code's
    three separate conversions to GB add up to one division of the byte
    total. *)
Lemma memory_usage_bytes (m : ModelSize) (t b : Z) (h : HardwareType) :
  calculate_memory_usage m t b h ==
  (of_int (parameters (model_specs m)) * 2
   + 2 * of_int (layers (model_specs m)) * of_int (heads (model_specs m))
     * of_int (head_dim (model_specs m))
     * of_int (Z.min t (context_length (model_specs m))) * of_int b * 2
   + of_int t * of_int (parameters (model_specs m)) * 2 * 0.1)
  / of_int (2 ^ 30) * 1.2.
Proof.
  unfold calculate_memory_usage, truediv, of_int. cbv zeta.
  rewrite !inject_Z_mult.
  change (1024 ^ 3)%Z with 1073741824%Z.
  change (2 ^ 30)%Z with 1073741824%Z.
  change (inject_Z 2) with 2.
  change (inject_Z 1073741824) with 1073741824.
  field.
Qed.

(** ** Order lemmas on the arithmetic *)

Lemma of_int_lt (a c : Z) : (a < c)%Z -> of_int a < of_int c.
Proof. intros Hlt. unfold of_int. rewrite <- Zlt_Qlt. exact Hlt. Qed.

Lemma of_int_le (a c : Z) : (a <= c)%Z -> of_int a <= of_int c.
Proof. intros Hle. unfold of_int. rewrite <- Zle_Qle. exact Hle. Qed.

Lemma Qdiv_le_mono_r (a c d : Q) : 0 < d -> a <= c -> a / d <= c / d.
Proof.
  intros Hd Hac. unfold Qdiv.
  apply Qmult_le_compat_r; [exact Hac|].
  apply Qlt_le_weak. now apply Qinv_lt_0_compat.
Qed.

Lemma Qdiv_lt_mono_l (q c d : Q) : 0 < q -> 0 < c -> c < d -> q / d < q / c.
Proof.
  intros Hq Hc Hcd. unfold Qdiv.
  apply Qmult_lt_l; [exact Hq|].
  assert (Hd : 0 < d) by (apply Qlt_trans with c; assumption).
  apply (proj1 (Qinv_lt_contravar c d Hc Hd)). exact Hcd.
Qed.

Lemma truediv_le_mono (a c d : Z) :
  (0 < d)%Z -> (a <= c)%Z -> truediv a d <= truediv c d.
Proof.
  intros Hd Hac. unfold truediv.
  apply Qdiv_le_mono_r; [now apply of_int_pos | now apply of_int_le].
Qed.

Lemma truediv_pos (a c : Z) : (0 < a)%Z -> (0 < c)%Z -> 0 < truediv a c.
Proof.
  intros Ha Hc. unfold truediv.
  apply Qlt_shift_div_l; [now apply of_int_pos|].
  rewrite Qmult_0_l. now apply of_int_pos.
Qed.

(** ** Memory usage *)

Lemma memory_usage_matches_spec (m : ModelSize) (t b : Z)
    (h : HardwareType) :
  calculate_memory_usage m t b h == Spec.memory_gb m t b.
Proof.
  rewrite memory_usage_bytes.
  unfold Spec.memory_gb, Spec.modelMemory, Spec.kvCacheMemory,
    Spec.activationMemory.
  rewrite Layers_layers, Heads_heads, HeadDim_head_dim, Ctx_context_length.
  rewrite !Params_parameters. reflexivity.
Qed.

(** C1.  For every model, positive token count [t] and positive batch size
    [b], the memory usage in GB equals
    ((parameters x 2) + (2 x layers x heads x headDim x min(t, contextLength)
    x b x 2) + (t x parameters x 2 x 0.1)) / 2^30, times 1.2, with the
    canonical per-model constants; when [t] exceeds the context length the
    KV-cache term uses the context length while the activation term keeps
    [t]; and the hardware argument does not change the result. *)
Theorem calculate_memory_usage_formula :
  forall (m : ModelSize) (t b : Z) (h : HardwareType),
    (0 < t)%Z -> (0 < b)%Z ->
    calculate_memory_usage m t b h == Spec.memory_gb m t b
    /\ ((Spec.Ctx m < t)%Z ->
        calculate_memory_usage m t b h ==
        (Spec.modelMemory m + Spec.kvCacheMemory m (Spec.Ctx m) b
         + Spec.activationMemory m t) / of_int (2 ^ 30) * 1.2)
    /\ (forall h' : HardwareType,
          calculate_memory_usage m t b h' = calculate_memory_usage m t b h).
Proof.
  intros m t b h _ _.
  pose proof (memory_usage_matches_spec m t b h) as Hformula.
  split; [exact Hformula|]. split.
  - intros Hlong. rewrite Hformula. unfold Spec.memory_gb.
    rewrite Z.min_r by lia. reflexivity.
  - intros h'. reflexivity.
Qed.

Lemma calculate_memory_usage_formula_witness :
  calculate_memory_usage GPT4 9000 3 GPU_8GB == Spec.memory_gb GPT4 9000 3
  /\ ((Spec.Ctx GPT4 < 9000)%Z ->
      calculate_memory_usage GPT4 9000 3 GPU_8GB ==
      (Spec.modelMemory GPT4 + Spec.kvCacheMemory GPT4 (Spec.Ctx GPT4) 3
       + Spec.activationMemory GPT4 9000) / of_int (2 ^ 30) * 1.2)
  /\ (forall h' : HardwareType,
        calculate_memory_usage GPT4 9000 3 h'
        = calculate_memory_usage GPT4 9000 3 GPU_8GB).
Proof.
  apply (calculate_memory_usage_formula GPT4 9000 3 GPU_8GB); reflexivity.
Defined.

(** ** Latency *)

(** C2.  For a positive token count [t], the latency is 2.0 + t / 50 in API
    mode, whatever the model, hardware and batch size, and
    (t / baseline) x 1.1 in LOCAL mode, where baseline is the
    PerformanceBaseline entry of the (model, hardware) pair. *)
Theorem calculate_latency_formula :
  forall (m : ModelSize) (t b : Z) (h : HardwareType),
    (0 < t)%Z ->
    calculate_latency m t b h API == 2.0 + of_int t / 50
    /\ (forall (m' : ModelSize) (b' : Z) (h' : HardwareType),
          calculate_latency m' t b' h' API = calculate_latency m t b h API)
    /\ calculate_latency m t b h LOCAL ==
       (of_int t / Spec.PerformanceBaseline m h) * 1.1.
Proof.
  intros m t b h _. split; [|split].
  - unfold calculate_latency, truediv. cbn [DeploymentMode_beq].
    reflexivity.
  - intros m' b' h'. reflexivity.
  - rewrite PerformanceBaseline_table.
    unfold calculate_latency. cbn [DeploymentMode_beq].
    pose proof (performance_baselines_pos m h) as Hpos.
    field. lra.
Qed.

Lemma calculate_latency_formula_witness :
  calculate_latency THIRTEEN_B 500 1 GPU_8GB API == 2.0 + of_int 500 / 50
  /\ (forall (m' : ModelSize) (b' : Z) (h' : HardwareType),
        calculate_latency m' 500 b' h' API
        = calculate_latency THIRTEEN_B 500 1 GPU_8GB API)
  /\ calculate_latency THIRTEEN_B 500 1 GPU_8GB LOCAL ==
     (of_int 500 / Spec.PerformanceBaseline THIRTEEN_B GPU_8GB) * 1.1.
Proof.
  apply (calculate_latency_formula THIRTEEN_B 500 1 GPU_8GB); reflexivity.
Defined.

(** ** Cost *)

(** C3.  For a positive token count [t], the cost in API mode is
    (t x 0.7 / 1000) x inputPrice + (t x 0.3 / 1000) x outputPrice with the
    model's API prices, and in LOCAL mode it is
    ((costUSD / (3 x 365 x 8) + (watts / 1000) x 0.12) / 3600) x L, where L
    is the value [calculate_latency] returns for the same request. *)
Theorem calculate_cost_formula :
  forall (m : ModelSize) (t b : Z) (h : HardwareType),
    (0 < t)%Z ->
    calculate_cost m t b h API ==
      (of_int t * 0.7 / 1000) * Spec.inputPrice m
      + (of_int t * 0.3 / 1000) * Spec.outputPrice m
    /\ calculate_cost m t b h LOCAL ==
       ((Spec.costUSD h / (3 * 365 * 8) + (Spec.watts h / 1000) * 0.12)
        / 3600) * calculate_latency m t b h LOCAL.
Proof.
  intros m t b h _. split.
  - unfold calculate_cost. cbn [DeploymentMode_beq]. cbv zeta.
    destruct (pricing_table m) as [-> ->]. reflexivity.
  - unfold calculate_cost. cbn [DeploymentMode_beq]. cbv zeta.
    destruct (hardware_table h) as (_ & -> & ->).
    reflexivity.
Qed.

Lemma calculate_cost_formula_witness :
  calculate_cost GPT4 2000 1 GPU_8GB API ==
    (of_int 2000 * 0.7 / 1000) * Spec.inputPrice GPT4
    + (of_int 2000 * 0.3 / 1000) * Spec.outputPrice GPT4
  /\ calculate_cost GPT4 2000 1 GPU_8GB LOCAL ==
     ((Spec.costUSD GPU_8GB / (3 * 365 * 8)
       + (Spec.watts GPU_8GB / 1000) * 0.12) / 3600)
     * calculate_latency GPT4 2000 1 GPU_8GB LOCAL.
Proof.
  apply (calculate_cost_formula GPT4 2000 1 GPU_8GB); reflexivity.
Defined.

(** ** Enum lookup and the validation done by [calculate] *)

Section EnumLookup.

Context {A : Type} `{Enum A}.

Lemma by_value_inr (v : string) (a : A) :
  by_value v = inr a -> value a = v /\ In a members.
Proof.
  unfold by_value.
  destruct (find _ members) as [a'|] eqn:Hfind; [|discriminate].
  intros [= <-]. apply find_some in Hfind as [Hin Heq].
  apply String.eqb_eq in Heq. auto.
Qed.

Lemma by_value_inl (v : string) (e : ValueError) :
  by_value v = inl e ->
  e = EnumValueError v qualname /\ ~ In v (map value members).
Proof.
  unfold by_value.
  destruct (find _ members) as [a'|] eqn:Hfind; [discriminate|].
  intros [= <-]. split; [reflexivity|].
  intros (a & Ha & Hin)%in_map_iff.
  pose proof (find_none _ _ Hfind a Hin) as Hneq. cbn in Hneq.
  rewrite Ha, String.eqb_refl in Hneq. discriminate.
Qed.

Lemma by_value_In (v : string) :
  In v (map value members) -> exists a : A, by_value v = inr a.
Proof.
  intros Hin. destruct (by_value v) as [e|a] eqn:Hv; [|eauto].
  apply by_value_inl in Hv as [_ Hnot]. contradiction.
Qed.

Lemma by_value_not_In (v : string) :
  ~ In v (map value members) ->
  by_value v = inl (EnumValueError v qualname).
Proof.
  intros Hnot. destruct (by_value v) as [e|a] eqn:Hv.
  - apply by_value_inl in Hv as [-> _]. reflexivity.
  - apply by_value_inr in Hv as [<- Hin]. exfalso. apply Hnot.
    apply in_map. exact Hin.
Qed.

End EnumLookup.

Lemma ModelSize_by_value (m : ModelSize) : by_value (value m) = inr m.
Proof. destruct m; reflexivity. Qed.

Lemma HardwareType_by_value (h : HardwareType) : by_value (value h) = inr h.
Proof. destruct h; reflexivity. Qed.

Lemma DeploymentMode_by_value (d : DeploymentMode) :
  by_value (value d) = inr d.
Proof. destruct d; reflexivity. Qed.

(** The closed vocabularies are the values of the three enumerations. *)
Lemma models_values : Spec.models = map value (members (A := ModelSize)).
Proof. reflexivity. Qed.

Lemma hardwares_values :
  Spec.hardwares = map value (members (A := HardwareType)).
Proof. reflexivity. Qed.

Lemma deployments_values :
  Spec.deployments = map value (members (A := DeploymentMode)).
Proof. reflexivity. Qed.

Lemma calculate_bad_model (ms : string) (t b : Z) (hs ds : string) :
  ~ In ms Spec.models ->
  calculate ms t b hs ds
  = inl (invalid_input (EnumValueError ms "ModelSize")).
Proof.
  rewrite models_values. intros Hnot. unfold calculate.
  rewrite (by_value_not_In (A := ModelSize) ms Hnot). reflexivity.
Qed.

Lemma calculate_bad_hardware (ms : string) (t b : Z) (hs ds : string) :
  In ms Spec.models -> ~ In hs Spec.hardwares ->
  calculate ms t b hs ds
  = inl (invalid_input (EnumValueError hs "HardwareType")).
Proof.
  rewrite models_values, hardwares_values. intros Hm Hnot. unfold calculate.
  destruct (by_value_In (A := ModelSize) ms Hm) as [m ->].
  rewrite (by_value_not_In (A := HardwareType) hs Hnot). reflexivity.
Qed.

Lemma calculate_bad_deployment (ms : string) (t b : Z) (hs ds : string) :
  In ms Spec.models -> In hs Spec.hardwares -> ~ In ds Spec.deployments ->
  calculate ms t b hs ds
  = inl (invalid_input (EnumValueError ds "DeploymentMode")).
Proof.
  rewrite models_values, hardwares_values, deployments_values.
  intros Hm Hh Hnot. unfold calculate.
  destruct (by_value_In (A := ModelSize) ms Hm) as [m ->].
  destruct (by_value_In (A := HardwareType) hs Hh) as [h ->].
  rewrite (by_value_not_In (A := DeploymentMode) ds Hnot). reflexivity.
Qed.

Lemma calculate_enums (ms : string) (t b : Z) (hs ds : string)
    (m : ModelSize) (h : HardwareType) (d : DeploymentMode) :
  by_value ms = inr m -> by_value hs = inr h -> by_value ds = inr d ->
  calculate ms t b hs ds =
  if (t <=? 0)%Z then inl (Message "Tokens must be positive")
  else if (b <=? 0)%Z then inl (Message "Batch size must be positive")
       else inr (assembled m t b h d).
Proof.
  intros Hm Hh Hd. unfold calculate. rewrite Hm, Hh, Hd. cbn.
  destruct (t <=? 0)%Z; [reflexivity|].
  destruct (b <=? 0)%Z; reflexivity.
Qed.

Lemma calculate_valid (m : ModelSize) (t b : Z) (h : HardwareType)
    (d : DeploymentMode) :
  (0 < t)%Z -> (0 < b)%Z ->
  calculate (value m) t b (value h) (value d) = inr (assembled m t b h d).
Proof.
  intros Ht Hb.
  rewrite (calculate_enums _ t b _ _ m h d)
    by auto using ModelSize_by_value, HardwareType_by_value,
         DeploymentMode_by_value.
  destruct (Z.leb_spec t 0); [lia|].
  destruct (Z.leb_spec b 0); [lia|]. reflexivity.
Qed.

Lemma valid_strings (ms hs ds : string) :
  In ms Spec.models -> In hs Spec.hardwares -> In ds Spec.deployments ->
  exists (m : ModelSize) (h : HardwareType) (d : DeploymentMode),
    ms = value m /\ hs = value h /\ ds = value d.
Proof.
  rewrite models_values, hardwares_values, deployments_values.
  intros Hm Hh Hd.
  destruct (by_value_In (A := ModelSize) ms Hm) as [m Hm'].
  destruct (by_value_In (A := HardwareType) hs Hh) as [h Hh'].
  destruct (by_value_In (A := DeploymentMode) ds Hd) as [d Hd'].
  apply by_value_inr in Hm' as [<- _].
  apply by_value_inr in Hh' as [<- _].
  apply by_value_inr in Hd' as [<- _].
  exists m, h, d. auto.
Qed.

Lemma calculate_outcome (ms : string) (t b : Z) (hs ds : string) :
  outcome ms t b hs ds (calculate ms t b hs ds).
Proof.
  destruct (in_dec string_dec ms Spec.models) as [Hm|Hm].
  2: { rewrite calculate_bad_model by assumption. now constructor. }
  destruct (in_dec string_dec hs Spec.hardwares) as [Hh|Hh].
  2: { rewrite calculate_bad_hardware by assumption. now constructor. }
  destruct (in_dec string_dec ds Spec.deployments) as [Hd|Hd].
  2: { rewrite calculate_bad_deployment by assumption. now constructor. }
  destruct (valid_strings ms hs ds Hm Hh Hd) as (m & h & d & Em & Eh & Ed).
  rewrite (calculate_enums ms t b hs ds m h d)
    by (subst; auto using ModelSize_by_value, HardwareType_by_value,
          DeploymentMode_by_value).
  destruct (Z.leb_spec t 0); [now apply bad_tokens|].
  destruct (Z.leb_spec b 0); [now apply bad_batch_size|].
  now apply computed.
Qed.

(** ** The exceptions of the calculations *)

Lemma float_overflow_pos : (0 < Checked.float_overflow)%Z.
Proof. reflexivity. Qed.

Lemma Checked_truediv_cases (a b : Z) :
  b <> 0%Z ->
  Checked.truediv a b =
  if (Checked.float_overflow * Z.abs b <=? Z.abs a)%Z
  then inl division_overflow else inr (truediv a b).
Proof.
  intros Hb. unfold Checked.truediv.
  destruct (Z.eqb_spec b 0); [contradiction | reflexivity].
Qed.

Lemma Checked_truediv_fits (a b : Z) :
  (0 < b)%Z -> (Z.abs a < Checked.float_overflow * b)%Z ->
  Checked.truediv a b = inr (truediv a b).
Proof.
  intros Hb Ha. rewrite Checked_truediv_cases by lia.
  destruct (Z.leb_spec (Checked.float_overflow * Z.abs b) (Z.abs a));
    [lia | reflexivity].
Qed.

Lemma Checked_to_float_fits (n : Z) :
  (Z.abs n < Checked.float_overflow)%Z ->
  Checked.to_float n = inr (of_int n).
Proof.
  intros Hn. unfold Checked.to_float.
  destruct (Z.leb_spec Checked.float_overflow (Z.abs n)); [lia | reflexivity].
Qed.

Lemma weights_fit (m : ModelSize) :
  Checked.truediv (parameters (model_specs m) * 2) (1024 ^ 3)
  = inr (truediv (parameters (model_specs m) * 2) (1024 ^ 3)).
Proof. destruct m; vm_compute; reflexivity. Qed.

(** [calculate_memory_usage] raises exactly when one of its two growing
    divisions is beyond the range, and returns the value of the formula
    otherwise. *)
Lemma Checked_calculate_memory_usage (m : ModelSize) (t b : Z)
    (h : HardwareType) :
  Checked.calculate_memory_usage m t b h =
  if Checked.too_large m t b then inl division_overflow
  else inr (calculate_memory_usage m t b h).
Proof.
  unfold Checked.calculate_memory_usage, Checked.too_large,
    Checked.kv_cache_bytes, Checked.activation_bytes, calculate_memory_usage.
  cbv zeta. rewrite weights_fit. cbn [bindR].
  rewrite !Checked_truediv_cases by discriminate.
  change (Z.abs (1024 ^ 3)) with (1024 ^ 3)%Z.
  destruct (_ <=? _)%Z; [reflexivity|]. cbn [bindR orb].
  destruct (_ <=? _)%Z; reflexivity.
Qed.

(** Once the activation term is within the range, the token count is far
    below it. *)
Lemma fits_tokens (m : ModelSize) (t b : Z) :
  (0 < t)%Z -> Checked.too_large m t b = false ->
  (13 * t < Checked.float_overflow)%Z.
Proof.
  intros Ht Hfit. unfold Checked.too_large in Hfit.
  apply orb_false_iff in Hfit. destruct Hfit as [_ Hact].
  apply Z.leb_gt in Hact. unfold Checked.activation_bytes in Hact.
  pose proof float_overflow_pos as HT.
  change (1024 ^ 3)%Z with 1073741824%Z in Hact.
  destruct m; cbn [model_specs parameters] in Hact; lia.
Qed.

Lemma Checked_calculate_latency (m : ModelSize) (t b : Z) (h : HardwareType)
    (d : DeploymentMode) :
  (0 < t)%Z -> (t < Checked.float_overflow)%Z ->
  Checked.calculate_latency m t b h d = inr (calculate_latency m t b h d).
Proof.
  intros Ht Hfit.
  unfold Checked.calculate_latency, calculate_latency.
  destruct d; cbn [DeploymentMode_beq]; cbv zeta.
  - unfold Checked.truediv_entry.
    destruct m, h; cbn [performance_baselines Qden Qnum Z.eqb Pos.eqb];
      first [ rewrite Checked_truediv_fits by lia
            | rewrite Checked_to_float_fits by lia ];
      reflexivity.
  - rewrite Checked_truediv_fits by lia. reflexivity.
Qed.

Lemma Checked_calculate_cost (m : ModelSize) (t b : Z) (h : HardwareType)
    (d : DeploymentMode) :
  (0 < t)%Z -> (t < Checked.float_overflow)%Z ->
  Checked.calculate_cost m t b h d = inr (calculate_cost m t b h d).
Proof.
  intros Ht Hfit.
  unfold Checked.calculate_cost, calculate_cost.
  destruct d; cbn [DeploymentMode_beq]; cbv zeta.
  - rewrite Checked_calculate_latency by assumption. reflexivity.
  - rewrite Checked_to_float_fits by lia. reflexivity.
Qed.

Lemma Checked_check_hardware_compatibility (m : ModelSize)
    (h : HardwareType) :
  Checked.check_hardware_compatibility m h
  = inr (check_hardware_compatibility m h).
Proof.
  unfold Checked.check_hardware_compatibility, check_hardware_compatibility.
  destruct (HardwareType_beq h CPU); [reflexivity|].
  rewrite Checked_calculate_memory_usage.
  replace (Checked.too_large m 2048 1) with false
    by (destruct m; vm_compute; reflexivity).
  reflexivity.
Qed.

Lemma Checked_generate_recommendations (m : ModelSize) (t b : Z)
    (h : HardwareType) (d : DeploymentMode) :
  Checked.generate_recommendations m t b h d
  = inr (generate_recommendations m t b h d).
Proof.
  unfold Checked.generate_recommendations, generate_recommendations.
  rewrite Checked_check_hardware_compatibility.
  destruct d; reflexivity.
Qed.

(** With valid inputs [calculate] raises [OverflowError] when the request
    is too large, and returns the assembled result otherwise. *)
Lemma Checked_calculate_valid (m : ModelSize) (t b : Z) (h : HardwareType)
    (d : DeploymentMode) :
  (0 < t)%Z -> (0 < b)%Z ->
  Checked.calculate (value m) t b (value h) (value d) =
  if Checked.too_large m t b then inl division_overflow
  else inr (assembled m t b h d).
Proof.
  intros Ht Hb. unfold Checked.calculate.
  rewrite ModelSize_by_value, HardwareType_by_value,
    DeploymentMode_by_value.
  cbn [bind ret try_except value_error bindR].
  destruct (Z.leb_spec t 0); [lia|]. destruct (Z.leb_spec b 0); [lia|].
  cbn [bindR]. rewrite Checked_calculate_memory_usage.
  destruct (Checked.too_large m t b) eqn:Hfit; [reflexivity|].
  pose proof (fits_tokens m t b Ht Hfit) as Hlt.
  cbn [bindR].
  rewrite Checked_calculate_latency, Checked_calculate_cost by lia.
  cbn [bindR].
  rewrite Checked_check_hardware_compatibility,
    Checked_generate_recommendations.
  reflexivity.
Qed.

(** The validation is that of the first part. *)
Lemma Checked_calculate_invalid (ms : string) (t b : Z) (hs ds : string)
    (e : ValueError) :
  calculate ms t b hs ds = inl e ->
  Checked.calculate ms t b hs ds = inl (AValueError e).
Proof.
  unfold calculate, Checked.calculate.
  destruct (try_except _ _) as [e0|[[m h] d]]; cbn [bind bindR value_error].
  - intros [= ->]. reflexivity.
  - destruct (t <=? 0)%Z; cbn [bind bindR raise ret];
      [intros [= ->]; reflexivity|].
    destruct (b <=? 0)%Z; cbn [bind bindR raise ret];
      [intros [= ->]; reflexivity|].
    discriminate.
Qed.

Lemma request_bound_fits (m : ModelSize) (t b : Z) :
  (0 < t <= Checked.request_bound)%Z -> (0 < b <= Checked.request_bound)%Z ->
  Checked.too_large m t b = false.
Proof.
  intros Ht Hb. unfold Checked.too_large.
  assert (Hc : (Checked.request_bound * 4000000000000
                < Checked.float_overflow * 1024 ^ 3)%Z) by reflexivity.
  change (1024 ^ 3)%Z with 1073741824%Z in *.
  apply orb_false_iff. split; apply Z.leb_gt.
  - unfold Checked.kv_cache_bytes.
    destruct m; cbn [model_specs layers heads head_dim context_length];
      rewrite Z.abs_eq by nia; nia.
  - unfold Checked.activation_bytes.
    destruct m; cbn [model_specs parameters]; rewrite Z.abs_eq by lia; lia.
Qed.

Lemma request_bound_below_overflow (t : Z) :
  (t <= Checked.request_bound)%Z -> (t < Checked.float_overflow)%Z.
Proof.
  intros Ht.
  assert (Hc : (Checked.request_bound < Checked.float_overflow)%Z)
    by reflexivity.
  lia.
Qed.

(** The ways a call of [calculate] can end, with the exceptions of the
    calculations. *)
Lemma Checked_calculate_outcome (ms : string) (t b : Z) (hs ds : string) :
  match calculate ms t b hs ds with
  | inl e => Checked.calculate ms t b hs ds = inl (AValueError e)
  | inr r =>
      exists (m : ModelSize) (h : HardwareType) (d : DeploymentMode),
        ms = value m /\ hs = value h /\ ds = value d
        /\ (0 < t)%Z /\ (0 < b)%Z
        /\ r = assembled m t b h d
        /\ Checked.calculate ms t b hs ds =
           if Checked.too_large m t b then inl division_overflow
           else inr r
  end.
Proof.
  pose proof (calculate_outcome ms t b hs ds) as Hout.
  destruct (calculate ms t b hs ds) as [e|r] eqn:Hc.
  - now apply Checked_calculate_invalid.
  - inversion Hout as [ | | | | | m h d Em Eh Ed Hm Hh Hd Ht Hb Hr]; subst.
    exists m, h, d. repeat (split; [solve [reflexivity | assumption]|]).
    now apply Checked_calculate_valid.
Qed.

(** ** Input validation *)

(** C7, as stated, fails: with the five inputs valid, [calculate] raises
    (an [OverflowError], from the division of the activation bytes). *)
Lemma calculate_raises_on_valid_input :
  In "7B" Spec.models /\ In "CPU" Spec.hardwares
  /\ In "api" Spec.deployments /\ (0 < 10 ^ 400)%Z /\ (0 < 1)%Z
  /\ Checked.calculate "7B" (10 ^ 400) 1 "CPU" "api"
     = inl (OverflowError "integer division result too large for a float").
Proof.
  split; [cbn; tauto|]. split; [cbn; tauto|]. split; [cbn; tauto|].
  split; [reflexivity|]. split; [reflexivity|].
  vm_compute. reflexivity.
Qed.

(** C7, amended.  [calculate] raises [ValueError] exactly when the model
    string is outside {"7B","13B","GPT-4"}, or the hardware string is
    outside the hardware vocabulary, or the deployment string is neither
    "local" nor "api", or tokens <= 0, or batch size <= 0; each of the five
    alone is enough.  The [ValueError] comes from validation and names a
    field that is indeed invalid; a failing call yields no result.  The only
    other exception is the [OverflowError] of [int / int].  With the five
    inputs valid, [calculate] raises it exactly when the KV-cache bytes or
    the activation bytes, divided by 2^30, are 2^1024 - 2^970 or more, and
    returns a result otherwise; it returns whenever tokens and batch size
    are at most 10^300. *)
Theorem calculate_raises :
  forall (ms : string) (t b : Z) (hs ds : string),
    ((exists e : ValueError,
        Checked.calculate ms t b hs ds = inl (AValueError e)) <->
     (~ In ms Spec.models \/ ~ In hs Spec.hardwares
      \/ ~ In ds Spec.deployments \/ (t <= 0)%Z \/ (b <= 0)%Z))
    /\ (forall e : ValueError,
          Checked.calculate ms t b hs ds = inl (AValueError e) ->
          (e = invalid_input (EnumValueError ms "ModelSize")
           /\ ~ In ms Spec.models)
          \/ (e = invalid_input (EnumValueError hs "HardwareType")
              /\ ~ In hs Spec.hardwares)
          \/ (e = invalid_input (EnumValueError ds "DeploymentMode")
              /\ ~ In ds Spec.deployments)
          \/ (e = Message "Tokens must be positive" /\ (t <= 0)%Z)
          \/ (e = Message "Batch size must be positive" /\ (b <= 0)%Z))
    /\ (forall x : Exception,
          Checked.calculate ms t b hs ds = inl x ->
          (exists e : ValueError, x = AValueError e)
          \/ x = OverflowError "integer division result too large for a float")
    /\ (forall m : ModelSize,
          ms = value m -> In hs Spec.hardwares -> In ds Spec.deployments ->
          (0 < t)%Z -> (0 < b)%Z ->
          (Checked.calculate ms t b hs ds
           = inl (OverflowError "integer division result too large for a float")
           <-> Checked.too_large m t b = true)
          /\ ((exists r : CalculationResult,
                 Checked.calculate ms t b hs ds = inr r)
              <-> Checked.too_large m t b = false)
          /\ ((t <= Checked.request_bound)%Z ->
              (b <= Checked.request_bound)%Z ->
              Checked.too_large m t b = false)).
Proof.
  intros ms t b hs ds.
  pose proof (calculate_outcome ms t b hs ds) as Hout.
  pose proof (Checked_calculate_outcome ms t b hs ds) as Hck.
  assert (Hve : forall e, Checked.calculate ms t b hs ds = inl (AValueError e)
                          -> calculate ms t b hs ds = inl e).
  { intros e He. destruct (calculate ms t b hs ds) as [e'|r].
    - rewrite Hck in He. now injection He as ->.
    - destruct Hck as (m & h & d & _ & _ & _ & _ & _ & _ & Hr).
      rewrite Hr in He. destruct (Checked.too_large m t b); discriminate. }
  split; [|split; [|split]].
  - split.
    + intros [e He]. apply Hve in He. rewrite He in Hout.
      inversion Hout; subst; auto 10.
    + intros Hbad.
      inversion Hout as [ | | | | | m h d Em Eh Ed Hm Hh Hd Ht Hb Hr];
        match goal with
        | H : inl ?e = calculate _ _ _ _ _ |- _ =>
            exists e; apply Checked_calculate_invalid; now symmetry
        | _ => idtac
        end.
      exfalso. destruct Hbad as [?|[?|[?|[?|?]]]];
        solve [contradiction | lia].
  - intros e He. apply Hve in He. rewrite He in Hout.
    inversion Hout; subst; auto 10.
  - intros x Hx. destruct (calculate ms t b hs ds) as [e|r].
    + left. exists e. rewrite Hck in Hx. now injection Hx as <-.
    + destruct Hck as (m & h & d & _ & _ & _ & _ & _ & _ & Hr).
      rewrite Hr in Hx. destruct (Checked.too_large m t b); [|discriminate].
      right. now injection Hx as <-.
  - intros m -> Hh Hd Ht Hb.
    destruct (valid_strings (value m) hs ds) as (m' & h & d & _ & -> & ->);
      [destruct m; cbn; tauto | assumption | assumption |].
    rewrite Checked_calculate_valid by assumption.
    fold division_overflow.
    split; [|split].
    + destruct (Checked.too_large m t b); split;
        solve [reflexivity | discriminate].
    + destruct (Checked.too_large m t b); split;
        solve [ intros [r Hr]; discriminate Hr | discriminate | eauto ].
    + intros Htb Hbb. apply request_bound_fits; lia.
Qed.

(** ** Signs of the results *)

Lemma truediv_nonneg (a c : Z) :
  (0 <= a)%Z -> (0 < c)%Z -> 0 <= truediv a c.
Proof.
  intros Ha Hc. unfold truediv.
  apply Qle_shift_div_l; [now apply of_int_pos|].
  rewrite Qmult_0_l. unfold of_int. change 0 with (inject_Z 0).
  rewrite <- Zle_Qle. exact Ha.
Qed.

Lemma calculate_memory_usage_nonneg (m : ModelSize) (t b : Z)
    (h : HardwareType) :
  (0 < t)%Z -> (0 < b)%Z -> 0 <= calculate_memory_usage m t b h.
Proof.
  intros Ht Hb. unfold calculate_memory_usage. cbv zeta.
  assert (Hmin : (0 < Z.min t (context_length (model_specs m)))%Z)
    by (destruct m; cbn; lia).
  assert (Hw : 0 <= truediv (parameters (model_specs m) * 2) (1024 ^ 3))
    by (apply truediv_nonneg; [destruct m; cbn; lia | reflexivity]).
  assert (Hkv : 0 <= truediv
                  (2 * layers (model_specs m) * heads (model_specs m)
                   * head_dim (model_specs m)
                   * Z.min t (context_length (model_specs m)) * b * 2)
                  (1024 ^ 3)).
  { apply truediv_nonneg; [|reflexivity].
    destruct m; cbn [model_specs layers heads head_dim context_length] in *;
      nia. }
  assert (Ha : 0 <= truediv (t * parameters (model_specs m) * 2) (1024 ^ 3))
    by (apply truediv_nonneg; [destruct m; cbn; lia | reflexivity]).
  lra.
Qed.

Lemma calculate_latency_pos (m : ModelSize) (t b : Z) (h : HardwareType)
    (d : DeploymentMode) :
  (0 < t)%Z -> 0 < calculate_latency m t b h d.
Proof.
  intros Ht. pose proof (of_int_pos t Ht) as Hq.
  unfold calculate_latency. destruct d; cbn [DeploymentMode_beq]; cbv zeta.
  - apply Qmult_lt_0_compat; [|reflexivity].
    apply Qlt_shift_div_l; [apply performance_baselines_pos|].
    rewrite Qmult_0_l. exact Hq.
  - assert (0 < truediv t 50); [|lra].
    unfold truediv. apply Qlt_shift_div_l; [reflexivity|].
    rewrite Qmult_0_l. exact Hq.
Qed.

Lemma calculate_cost_nonneg (m : ModelSize) (t b : Z) (h : HardwareType)
    (d : DeploymentMode) :
  (0 < t)%Z -> 0 <= calculate_cost m t b h d.
Proof.
  intros Ht. pose proof (of_int_pos t Ht) as Hq.
  unfold calculate_cost. destruct d; cbn [DeploymentMode_beq]; cbv zeta.
  - pose proof (calculate_latency_pos m t b h LOCAL Ht) as HL.
    apply Qmult_le_0_compat; [|lra].
    destruct h; vm_compute; discriminate.
  - assert (Hin : 0 <= of_int t * 0.7 / 1000)
      by (apply Qle_shift_div_l; [reflexivity | lra]).
    assert (Hout : 0 <= of_int t * 0.3 / 1000)
      by (apply Qle_shift_div_l; [reflexivity | lra]).
    destruct m; cbn [api_pricing input output]; lra.
Qed.

(** C9, as stated, fails: for this valid input [calculate] returns no
    result at all (the division of the KV-cache bytes raises
    [OverflowError]), so none with the three signs. *)
Lemma calculate_returns_no_result :
  In "GPT-4" Spec.models /\ In "GPU_8GB" Spec.hardwares
  /\ In "local" Spec.deployments /\ (0 < 1)%Z /\ (0 < 10 ^ 400)%Z
  /\ ~ (exists r : CalculationResult,
          Checked.calculate "GPT-4" 1 (10 ^ 400) "GPU_8GB" "local" = inr r
          /\ 0 < latency_seconds r
          /\ 0 <= memory_usage_gb r
          /\ 0 <= cost_per_request_usd r).
Proof.
  split; [cbn; tauto|]. split; [cbn; tauto|]. split; [cbn; tauto|].
  split; [reflexivity|]. split; [reflexivity|].
  intros (r & Hr & _).
  assert (Hraise : Checked.calculate "GPT-4" 1 (10 ^ 400) "GPU_8GB" "local"
                   = inl division_overflow) by (vm_compute; reflexivity).
  rewrite Hraise in Hr. discriminate Hr.
Qed.

(** C9, amended.  For every valid input (model, hardware and deployment
    strings in their vocabularies, positive tokens and batch size), every
    result that [calculate] returns has latency > 0, memory usage >= 0 and
    cost >= 0; it returns one whenever tokens and batch size are at most
    10^300, and in general it either returns one or raises the
    [OverflowError] of [int / int]. *)
Theorem calculate_result_signs :
  forall (ms : string) (t b : Z) (hs ds : string),
    In ms Spec.models -> In hs Spec.hardwares -> In ds Spec.deployments ->
    (0 < t)%Z -> (0 < b)%Z ->
    (forall r : CalculationResult,
       Checked.calculate ms t b hs ds = inr r ->
       0 < latency_seconds r
       /\ 0 <= memory_usage_gb r
       /\ 0 <= cost_per_request_usd r)
    /\ ((t <= Checked.request_bound)%Z -> (b <= Checked.request_bound)%Z ->
        exists r : CalculationResult,
          Checked.calculate ms t b hs ds = inr r
          /\ 0 < latency_seconds r
          /\ 0 <= memory_usage_gb r
          /\ 0 <= cost_per_request_usd r)
    /\ ((exists r : CalculationResult,
           Checked.calculate ms t b hs ds = inr r)
        \/ Checked.calculate ms t b hs ds
           = inl (OverflowError
                    "integer division result too large for a float")).
Proof.
  intros ms t b hs ds Hm Hh Hd Ht Hb.
  destruct (valid_strings ms hs ds Hm Hh Hd) as (m & h & d & -> & -> & ->).
  rewrite Checked_calculate_valid by assumption.
  assert (Hsigns : 0 < latency_seconds (assembled m t b h d)
                   /\ 0 <= memory_usage_gb (assembled m t b h d)
                   /\ 0 <= cost_per_request_usd (assembled m t b h d)).
  { cbn [assembled latency_seconds memory_usage_gb cost_per_request_usd].
    auto using calculate_latency_pos, calculate_memory_usage_nonneg,
      calculate_cost_nonneg. }
  split; [|split].
  - intros r Hr. destruct (Checked.too_large m t b); [discriminate Hr|].
    injection Hr as <-. exact Hsigns.
  - intros Htb Hbb. rewrite request_bound_fits by lia. eauto.
  - destruct (Checked.too_large m t b); [right; reflexivity | left; eauto].
Qed.

Lemma calculate_result_signs_witness :
  (forall r : CalculationResult,
     Checked.calculate "13B" 500 1 "GPU_8GB" "api" = inr r ->
     0 < latency_seconds r
     /\ 0 <= memory_usage_gb r
     /\ 0 <= cost_per_request_usd r)
  /\ ((500 <= Checked.request_bound)%Z -> (1 <= Checked.request_bound)%Z ->
      exists r : CalculationResult,
        Checked.calculate "13B" 500 1 "GPU_8GB" "api" = inr r
        /\ 0 < latency_seconds r
        /\ 0 <= memory_usage_gb r
        /\ 0 <= cost_per_request_usd r)
  /\ ((exists r : CalculationResult,
         Checked.calculate "13B" 500 1 "GPU_8GB" "api" = inr r)
      \/ Checked.calculate "13B" 500 1 "GPU_8GB" "api"
         = inl (OverflowError
                  "integer division result too large for a float")).
Proof.
  apply (calculate_result_signs "13B" 500 1 "GPU_8GB" "api");
    [cbn; tauto | cbn; tauto | cbn; tauto | reflexivity | reflexivity].
Defined.

(** ** Hardware compatibility *)


(** The 2048-token, batch-1 probe in GB, per model: just above 3359, 5981
    and 809608. *)
Lemma probe_memory_bounds :
  3359 < calculate_memory_usage SEVEN_B 2048 1 CPU
  /\ 5981 < calculate_memory_usage THIRTEEN_B 2048 1 CPU
  /\ 809608 < calculate_memory_usage GPT4 2048 1 CPU.
Proof. split; [|split]; reflexivity. Qed.

(** With the tables as they are, the probe exceeds the VRAM of every GPU
    class for every model. *)
Lemma gpu_never_compatible (m : ModelSize) (h : HardwareType) :
  h <> CPU -> check_hardware_compatibility m h = false.
Proof. destruct m, h; intros Hgpu; solve [contradiction | reflexivity]. Qed.


(** C5.  [calculate("7B", 1000, 1, "GPU_16GB", "local")] returns a result
    whose latency is 1000/35 x 1.1, but whose [hardware_compatible] is
    false: the probe needs more than 3359 GB against 16 GB of VRAM. *)
Theorem scenario_7B_1000_GPU_16GB_local :
  exists r : CalculationResult,
    calculate "7B" 1000 1 "GPU_16GB" "local" = inr r
    /\ hardware_compatible r = false
    /\ latency_seconds r == 1000 / 35 * 1.1
    /\ Spec.vramGB GPU_16GB < 3359
    /\ 3359 < calculate_memory_usage SEVEN_B 2048 1 GPU_16GB.
Proof.
  exists (assembled SEVEN_B 1000 1 GPU_16GB LOCAL).
  split; [apply (calculate_valid SEVEN_B 1000 1 GPU_16GB LOCAL); lia|].
  split; [reflexivity|]. split; [reflexivity|]. split; reflexivity.
Qed.

(** The same scenario in binary64: the probe is 3359.19... GB, the check is
    false, and the latency is the double that 1000/35 x 1.1 denotes. *)
Lemma scenario_7B_1000_GPU_16GB_local_binary64 :
  Binary64.check_hardware_compatibility SEVEN_B GPU_16GB = Some false
  /\ Binary64.ltb (Binary64.of_int 3359)
       (Binary64.calculate_memory_usage SEVEN_B 2048 1 GPU_16GB) = Some true
  /\ (exists x : float,
        Binary64.calculate_latency_local SEVEN_B 1000 1 GPU_16GB = Some x)
  /\ Binary64.calculate_latency_local SEVEN_B 1000 1 GPU_16GB
     = Binary64.lift2 PrimFloat.mul (Binary64.truediv 1000 35)
         (Binary64.of_Q 1.1).
Proof.
  split; [|split; [|split]]; try (vm_compute; reflexivity).
  vm_compute. eexists. reflexivity.
Qed.



(** ** Batch size *)

Lemma calculate_memory_usage_batch_mono (m : ModelSize) (t b1 b2 : Z)
    (h : HardwareType) :
  (0 < t)%Z -> (b1 <= b2)%Z ->
  calculate_memory_usage m t b1 h <= calculate_memory_usage m t b2 h.
Proof.
  intros Ht Hb. unfold calculate_memory_usage. cbv zeta.
  assert (Hmin : (0 < Z.min t (context_length (model_specs m)))%Z)
    by (destruct m; cbn; lia).
  assert (Hkv : truediv
                  (2 * layers (model_specs m) * heads (model_specs m)
                   * head_dim (model_specs m)
                   * Z.min t (context_length (model_specs m)) * b1 * 2)
                  (1024 ^ 3)
                <= truediv
                     (2 * layers (model_specs m) * heads (model_specs m)
                      * head_dim (model_specs m)
                      * Z.min t (context_length (model_specs m)) * b2 * 2)
                     (1024 ^ 3)).
  { apply truediv_le_mono; [reflexivity|].
    destruct m; cbn [model_specs layers heads head_dim context_length] in *;
      nia. }
  lra.
Qed.

Lemma generate_recommendations_batch (m : ModelSize) (t b1 b2 : Z)
    (h : HardwareType) (d : DeploymentMode) :
  (1 <? b1)%Z = (1 <? b2)%Z -> (4 <? b1)%Z = (4 <? b2)%Z ->
  generate_recommendations m t b1 h d = generate_recommendations m t b2 h d.
Proof.
  intros H1 H4. unfold generate_recommendations. rewrite H1, H4. reflexivity.
Qed.

(** C6, as stated, fails: two calls that differ only in batch size return
    different memory usage. *)
Lemma batch_size_changes_memory :
  exists r1 r2 : CalculationResult,
    calculate "7B" 1000 1 "GPU_8GB" "local" = inr r1
    /\ calculate "7B" 1000 2 "GPU_8GB" "local" = inr r2
    /\ latency_seconds r1 = latency_seconds r2
    /\ cost_per_request_usd r1 = cost_per_request_usd r2
    /\ memory_usage_gb r1 < memory_usage_gb r2
    /\ ~ memory_usage_gb r1 == memory_usage_gb r2.
Proof.
  exists (assembled SEVEN_B 1000 1 GPU_8GB LOCAL),
         (assembled SEVEN_B 1000 2 GPU_8GB LOCAL).
  split; [apply (calculate_valid SEVEN_B 1000 1 GPU_8GB LOCAL); lia|].
  split; [apply (calculate_valid SEVEN_B 1000 2 GPU_8GB LOCAL); lia|].
  split; [reflexivity|]. split; [reflexivity|].
  split; [reflexivity|]. intros Heq. vm_compute in Heq. discriminate Heq.
Qed.

(** The same two calls in binary64 also differ in memory usage. *)
Lemma batch_size_changes_memory_binary64 :
  Binary64.ltb (Binary64.calculate_memory_usage SEVEN_B 1000 1 GPU_8GB)
    (Binary64.calculate_memory_usage SEVEN_B 1000 2 GPU_8GB) = Some true.
Proof. vm_compute. reflexivity. Qed.

(** C6, amended.  For any two positive batch sizes with which [calculate]
    returns (neither makes the request too large for the division of the
    KV-cache bytes), the results carry the same latency, the same cost and
    the same compatibility flag.  The memory usage is not the same in
    general: it never decreases when the batch size grows.  The
    recommendations depend on the batch size only through the two
    thresholds (> 1 and > 4). *)
Theorem batch_size_effect :
  forall (m : ModelSize) (t b1 b2 : Z) (h : HardwareType)
         (d : DeploymentMode),
    (0 < t)%Z -> (0 < b1)%Z -> (0 < b2)%Z ->
    Checked.too_large m t b1 = false -> Checked.too_large m t b2 = false ->
    exists r1 r2 : CalculationResult,
      Checked.calculate (value m) t b1 (value h) (value d) = inr r1
      /\ Checked.calculate (value m) t b2 (value h) (value d) = inr r2
      /\ latency_seconds r1 = latency_seconds r2
      /\ cost_per_request_usd r1 = cost_per_request_usd r2
      /\ hardware_compatible r1 = hardware_compatible r2
      /\ ((b1 <= b2)%Z -> memory_usage_gb r1 <= memory_usage_gb r2)
      /\ ((1 <? b1)%Z = (1 <? b2)%Z -> (4 <? b1)%Z = (4 <? b2)%Z ->
          recommendations r1 = recommendations r2).
Proof.
  intros m t b1 b2 h d Ht Hb1 Hb2 Hfit1 Hfit2.
  exists (assembled m t b1 h d), (assembled m t b2 h d).
  rewrite !Checked_calculate_valid by assumption. rewrite Hfit1, Hfit2.
  split; [reflexivity|]. split; [reflexivity|].
  split; [reflexivity|]. split; [reflexivity|]. split; [reflexivity|].
  cbn [assembled memory_usage_gb recommendations]. split.
  - now apply calculate_memory_usage_batch_mono.
  - apply generate_recommendations_batch.
Qed.

Lemma batch_size_effect_witness :
  exists r1 r2 : CalculationResult,
    Checked.calculate "13B" 3000 2 "GPU_24GB" "local" = inr r1
    /\ Checked.calculate "13B" 3000 3 "GPU_24GB" "local" = inr r2
    /\ latency_seconds r1 = latency_seconds r2
    /\ cost_per_request_usd r1 = cost_per_request_usd r2
    /\ hardware_compatible r1 = hardware_compatible r2
    /\ ((2 <= 3)%Z -> memory_usage_gb r1 <= memory_usage_gb r2)
    /\ ((1 <? 2)%Z = (1 <? 3)%Z -> (4 <? 2)%Z = (4 <? 3)%Z ->
        recommendations r1 = recommendations r2).
Proof.
  apply (batch_size_effect THIRTEEN_B 3000 2 3 GPU_24GB LOCAL);
    reflexivity.
Defined.

(** ** Recommendations *)

Lemma In_fired (s : string) (rs : list (bool * string)) :
  In s (Spec.fired rs) <-> In (true, s) rs.
Proof.
  unfold Spec.fired. rewrite in_map_iff. split.
  - intros ([c s'] & Hs & Hin). apply filter_In in Hin as [Hin Hc].
    cbn in Hs, Hc. subst. exact Hin.
  - intros Hin. exists (true, s). split; [reflexivity|].
    apply filter_In. auto.
Qed.

(** C8.  The recommendations are the strings of the seven rules that hold,
    every rule evaluated, in the fixed order: (1) LOCAL and hardware
    incompatible; (2) LOCAL, CPU and model other than 7B; (3) LOCAL and
    tokens > 2048; (4) API, GPT-4 and tokens > 1000; (5) API and batch size
    > 1; (6) batch size > 4; (7) tokens > 4096.  So rules 1-3 fire only in
    LOCAL mode, rules 4-5 only in API mode, rules 6-7 in either; with 5000
    tokens the list contains "Consider chunking long sequences". *)
Theorem generate_recommendations_rules :
  forall (m : ModelSize) (t b : Z) (h : HardwareType) (d : DeploymentMode),
    generate_recommendations m t b h d
    = Spec.fired
        (Spec.rules (negb (check_hardware_compatibility m h)) m t b h d)
    /\ (forall s : string,
          In s (generate_recommendations m t b h d) <->
          In (true, s)
            (Spec.rules (negb (check_hardware_compatibility m h)) m t b h d))
    /\ In "Consider chunking long sequences"
         (generate_recommendations m 5000 b h d).
Proof.
  assert (Heq : forall m t b h d,
             generate_recommendations m t b h d
             = Spec.fired
                 (Spec.rules (negb (check_hardware_compatibility m h))
                    m t b h d)).
  { intros m t b h d.
    unfold generate_recommendations, Spec.fired, Spec.rules, append.
    generalize (check_hardware_compatibility m h). intros c.
    destruct (4 <? b)%Z, (4096 <? t)%Z, d.
    all: cbn [DeploymentMode_beq Spec.is_LOCAL Spec.is_API andb].
    all: try (destruct c, h, m, (2048 <? t)%Z; reflexivity).
    all: destruct m, (1000 <? t)%Z, (1 <? b)%Z; reflexivity. }
  intros m t b h d. split; [apply Heq|]. split.
  - intros s. rewrite Heq. apply In_fired.
  - rewrite Heq. apply In_fired. unfold Spec.rules.
    do 6 right. left. reflexivity.
Qed.

(** * Further properties of the calculation engine *)

(** ** Latency as a function of tokens and hardware *)

(** X1.  For positive token counts up to 10^300, [calculate_latency]
    returns the value of its formula, and in both deployment modes that
    value never decreases when the token count grows, whatever the model,
    hardware and batch sizes; an API request takes more than the 2.0
    seconds of base latency. *)
Theorem calculate_latency_monotone :
  forall (m : ModelSize) (t1 t2 b1 b2 : Z) (h : HardwareType)
         (d : DeploymentMode),
    (0 < t1)%Z -> (t1 <= t2)%Z -> (t2 <= Checked.request_bound)%Z ->
    Checked.calculate_latency m t1 b1 h d
    = inr (calculate_latency m t1 b1 h d)
    /\ Checked.calculate_latency m t2 b2 h d
       = inr (calculate_latency m t2 b2 h d)
    /\ calculate_latency m t1 b1 h d <= calculate_latency m t2 b2 h d
    /\ 2.0 < calculate_latency m t1 b1 h API.
Proof.
  intros m t1 t2 b1 b2 h d Ht1 Hle Hb2.
  pose proof (request_bound_below_overflow t2 Hb2) as Hlt.
  split; [apply Checked_calculate_latency; lia|].
  split; [apply Checked_calculate_latency; lia|].
  split.
  - unfold calculate_latency. destruct d; cbn [DeploymentMode_beq]; cbv zeta.
    + assert (Hx : of_int t1 / performance_baselines m h
                   <= of_int t2 / performance_baselines m h)
        by (apply Qdiv_le_mono_r;
            [apply performance_baselines_pos | now apply of_int_le]).
      lra.
    + assert (Hx : truediv t1 50 <= truediv t2 50)
        by (apply truediv_le_mono; [reflexivity | exact Hle]).
      lra.
  - unfold calculate_latency. cbn [DeploymentMode_beq]. cbv zeta.
    assert (Hx : 0 < truediv t1 50)
      by (apply truediv_pos; [exact Ht1 | reflexivity]).
    lra.
Qed.

Lemma calculate_latency_monotone_witness :
  Checked.calculate_latency SEVEN_B 500 1 GPU_8GB LOCAL
  = inr (calculate_latency SEVEN_B 500 1 GPU_8GB LOCAL)
  /\ Checked.calculate_latency SEVEN_B 501 4 GPU_8GB LOCAL
     = inr (calculate_latency SEVEN_B 501 4 GPU_8GB LOCAL)
  /\ calculate_latency SEVEN_B 500 1 GPU_8GB LOCAL
     <= calculate_latency SEVEN_B 501 4 GPU_8GB LOCAL
  /\ 2.0 < calculate_latency SEVEN_B 500 1 GPU_8GB API.
Proof.
  apply (calculate_latency_monotone SEVEN_B 500 501 1 4 GPU_8GB LOCAL);
    [reflexivity | discriminate | discriminate].
Defined.

Lemma baseline_increasing_in_vram (m : ModelSize) (h1 h2 : HardwareType) :
  m <> GPT4 ->
  vram_gb (hardware_specs h1) < vram_gb (hardware_specs h2) ->
  performance_baselines m h1 < performance_baselines m h2.
Proof.
  intros Hm Hv.
  destruct m; try contradiction;
    destruct h1, h2;
    solve [ reflexivity | exfalso; vm_compute in Hv; discriminate Hv ].
Qed.

(** X2.  In LOCAL mode, for the 7B and 13B models, hardware with more VRAM
    gives a strictly lower latency for the same positive token count; for
    GPT-4 the latency is the same on every hardware class. *)
Theorem local_latency_by_hardware :
  forall (m : ModelSize) (t b : Z) (h1 h2 : HardwareType),
    (0 < t)%Z ->
    vram_gb (hardware_specs h1) < vram_gb (hardware_specs h2) ->
    if ModelSize_beq m GPT4
    then calculate_latency m t b h1 LOCAL = calculate_latency m t b h2 LOCAL
    else calculate_latency m t b h2 LOCAL < calculate_latency m t b h1 LOCAL.
Proof.
  intros m t b h1 h2 Ht Hv.
  destruct (ModelSize_beq m GPT4) eqn:Hm.
  - destruct m; try discriminate Hm. destruct h1, h2; reflexivity.
  - assert (Hne : m <> GPT4) by (intros ->; discriminate Hm).
    pose proof (baseline_increasing_in_vram m h1 h2 Hne Hv) as Hb.
    pose proof (performance_baselines_pos m h1) as Hp1.
    unfold calculate_latency. cbn [DeploymentMode_beq]. cbv zeta.
    assert (Hx : of_int t / performance_baselines m h2
                 < of_int t / performance_baselines m h1)
      by (apply Qdiv_lt_mono_l; [now apply of_int_pos | exact Hp1 | exact Hb]).
    lra.
Qed.

Lemma local_latency_by_hardware_witness :
  calculate_latency SEVEN_B 1000 1 GPU_24GB LOCAL
  < calculate_latency SEVEN_B 1000 1 GPU_8GB LOCAL.
Proof.
  exact (local_latency_by_hardware SEVEN_B 1000 1 GPU_8GB GPU_24GB
           eq_refl eq_refl).
Defined.

(** ** Memory as a function of tokens *)

Lemma activation_is_tokens_times_weights (m : ModelSize) (t : Z) :
  truediv (t * parameters (model_specs m) * 2) (1024 ^ 3)
  == of_int t * truediv (parameters (model_specs m) * 2) (1024 ^ 3).
Proof.
  unfold truediv, of_int. rewrite !inject_Z_mult.
  change (inject_Z (1024 ^ 3)) with 1073741824. field.
Qed.

Lemma kv_cache_bytes_mono (m : ModelSize) (t1 t2 b : Z) :
  (0 < b)%Z -> (t1 <= t2)%Z ->
  (2 * layers (model_specs m) * heads (model_specs m)
   * head_dim (model_specs m) * Z.min t1 (context_length (model_specs m))
   * b * 2
   <= 2 * layers (model_specs m) * heads (model_specs m)
      * head_dim (model_specs m) * Z.min t2 (context_length (model_specs m))
      * b * 2)%Z.
Proof.
  intros Hb Ht.
  assert (Hmin : (Z.min t1 (context_length (model_specs m))
                  <= Z.min t2 (context_length (model_specs m)))%Z) by lia.
  destruct m; cbn [model_specs layers heads head_dim context_length] in *;
    nia.
Qed.

(** X4.  For positive tokens and batch size up to 10^300,
    [calculate_memory_usage] returns the value of its formula; that value
    never decreases when the token count grows, also beyond the context
    length; and it exceeds a tenth of the size of the FP16 weights in GB
    for every token of the request. *)
Theorem calculate_memory_usage_monotone :
  forall (m : ModelSize) (t1 t2 b : Z) (h : HardwareType),
    (0 < t1)%Z -> (t1 <= t2)%Z -> (t2 <= Checked.request_bound)%Z ->
    (0 < b)%Z -> (b <= Checked.request_bound)%Z ->
    Checked.calculate_memory_usage m t1 b h
    = inr (calculate_memory_usage m t1 b h)
    /\ Checked.calculate_memory_usage m t2 b h
       = inr (calculate_memory_usage m t2 b h)
    /\ calculate_memory_usage m t1 b h <= calculate_memory_usage m t2 b h
    /\ of_int t1 * truediv (parameters (model_specs m) * 2) (1024 ^ 3) * 0.1
       < calculate_memory_usage m t1 b h.
Proof.
  intros m t1 t2 b h Ht1 Hle Ht2 Hb Hbb.
  split; [rewrite Checked_calculate_memory_usage, request_bound_fits by lia;
          reflexivity|].
  split; [rewrite Checked_calculate_memory_usage, request_bound_fits by lia;
          reflexivity|].
  unfold calculate_memory_usage. cbv zeta.
  pose proof (kv_cache_bytes_mono m t1 t2 b Hb Hle) as Hkv.
  apply (truediv_le_mono _ _ (1024 ^ 3)) in Hkv; [|reflexivity].
  assert (Hact : truediv (t1 * parameters (model_specs m) * 2) (1024 ^ 3)
                 <= truediv (t2 * parameters (model_specs m) * 2) (1024 ^ 3))
    by (apply truediv_le_mono; [reflexivity | destruct m; cbn; lia]).
  split; [lra|].
  assert (Hkv1 : 0 < truediv
                   (2 * layers (model_specs m) * heads (model_specs m)
                    * head_dim (model_specs m)
                    * Z.min t1 (context_length (model_specs m)) * b * 2)
                   (1024 ^ 3)).
  { apply truediv_pos; [|reflexivity].
    assert (Hmin : (0 < Z.min t1 (context_length (model_specs m)))%Z)
      by (destruct m; cbn; lia).
    destruct m; cbn [model_specs layers heads head_dim context_length] in *;
      nia. }
  assert (HW : 0 < truediv (parameters (model_specs m) * 2) (1024 ^ 3))
    by (apply truediv_pos; [destruct m; cbn; lia | reflexivity]).
  assert (HA : 0 < truediv (t1 * parameters (model_specs m) * 2) (1024 ^ 3))
    by (apply truediv_pos; [destruct m; cbn; lia | reflexivity]).
  rewrite <- activation_is_tokens_times_weights.
  lra.
Qed.

Lemma calculate_memory_usage_monotone_witness :
  Checked.calculate_memory_usage THIRTEEN_B 5000 2 GPU_8GB
  = inr (calculate_memory_usage THIRTEEN_B 5000 2 GPU_8GB)
  /\ Checked.calculate_memory_usage THIRTEEN_B 5001 2 GPU_8GB
     = inr (calculate_memory_usage THIRTEEN_B 5001 2 GPU_8GB)
  /\ calculate_memory_usage THIRTEEN_B 5000 2 GPU_8GB
     <= calculate_memory_usage THIRTEEN_B 5001 2 GPU_8GB
  /\ of_int 5000 * truediv (parameters (model_specs THIRTEEN_B) * 2) (1024 ^ 3)
     * 0.1
     < calculate_memory_usage THIRTEEN_B 5000 2 GPU_8GB.
Proof.
  apply (calculate_memory_usage_monotone THIRTEEN_B 5000 5001 2 GPU_8GB);
    [reflexivity | discriminate | discriminate | reflexivity | discriminate].
Defined.

(** ** Cost as a function of tokens *)

Lemma hourly_cost_pos (h : HardwareType) :
  0 < (cost_usd (hardware_specs h) / of_int (3 * 365 * 8)
       + power_watts (hardware_specs h) / 1000 * 0.12) / 3600.
Proof. destruct h; reflexivity. Qed.

(** X5.  For a positive token count up to 10^300, [calculate_cost] in API
    mode returns the value of its formula, which does not depend on the
    hardware or the batch size; it is 0 for 7B, between 0.00000025 and
    0.00000027 USD per token for 13B, and between 0.000015 and 0.000017 USD
    per token for GPT-4. *)
Theorem api_cost_per_token :
  forall (t b b' : Z) (h h' : HardwareType),
    (0 < t)%Z -> (t <= Checked.request_bound)%Z ->
    (forall m : ModelSize,
       Checked.calculate_cost m t b h API = inr (calculate_cost m t b h API))
    /\ calculate_cost SEVEN_B t b h API == 0
    /\ of_int t * 0.00000025 <= calculate_cost THIRTEEN_B t b h API
    /\ calculate_cost THIRTEEN_B t b h API <= of_int t * 0.00000027
    /\ of_int t * 0.000015 <= calculate_cost GPT4 t b h API
    /\ calculate_cost GPT4 t b h API <= of_int t * 0.000017
    /\ (forall m : ModelSize,
          calculate_cost m t b h API = calculate_cost m t b' h' API).
Proof.
  intros t b b' h h' Ht Htb.
  pose proof (of_int_pos t Ht) as HT.
  pose proof (request_bound_below_overflow t Htb) as Hlt.
  split; [intros m; now apply Checked_calculate_cost|].
  assert (Hrate : forall m,
             calculate_cost m t b h API
             == of_int t * ((0.7 * input (api_pricing m)
                             + 0.3 * output (api_pricing m)) / 1000)).
  { intros m. unfold calculate_cost. cbn [DeploymentMode_beq]. cbv zeta.
    field. }
  assert (H13 : calculate_cost THIRTEEN_B t b h API == of_int t * 0.00000026)
    by (rewrite Hrate; cbn [api_pricing input output]; field).
  assert (H4 : calculate_cost GPT4 t b h API == of_int t * 0.000016)
    by (rewrite Hrate; cbn [api_pricing input output]; field).
  split; [rewrite Hrate; cbn [api_pricing input output]; field|].
  split; [rewrite H13; lra|]. split; [rewrite H13; lra|].
  split; [rewrite H4; lra|]. split; [rewrite H4; lra|].
  intros m. reflexivity.
Qed.

Lemma api_cost_per_token_witness :
  (forall m : ModelSize,
     Checked.calculate_cost m 1000 1 GPU_8GB API
     = inr (calculate_cost m 1000 1 GPU_8GB API))
  /\ calculate_cost SEVEN_B 1000 1 GPU_8GB API == 0
  /\ of_int 1000 * 0.00000025 <= calculate_cost THIRTEEN_B 1000 1 GPU_8GB API
  /\ calculate_cost THIRTEEN_B 1000 1 GPU_8GB API <= of_int 1000 * 0.00000027
  /\ of_int 1000 * 0.000015 <= calculate_cost GPT4 1000 1 GPU_8GB API
  /\ calculate_cost GPT4 1000 1 GPU_8GB API <= of_int 1000 * 0.000017
  /\ (forall m : ModelSize,
        calculate_cost m 1000 1 GPU_8GB API = calculate_cost m 1000 4 CPU API).
Proof.
  apply (api_cost_per_token 1000 1 4 GPU_8GB CPU);
    [reflexivity | discriminate].
Defined.

(** X6.  For positive token counts up to 10^300, [calculate_cost] in LOCAL
    mode returns the value of its formula, which is strictly positive and
    never decreases when the token count grows. *)
Theorem local_cost_monotone :
  forall (m : ModelSize) (t1 t2 b : Z) (h : HardwareType),
    (0 < t1)%Z -> (t1 <= t2)%Z -> (t2 <= Checked.request_bound)%Z ->
    Checked.calculate_cost m t1 b h LOCAL
    = inr (calculate_cost m t1 b h LOCAL)
    /\ Checked.calculate_cost m t2 b h LOCAL
       = inr (calculate_cost m t2 b h LOCAL)
    /\ 0 < calculate_cost m t1 b h LOCAL
    /\ calculate_cost m t1 b h LOCAL <= calculate_cost m t2 b h LOCAL.
Proof.
  intros m t1 t2 b h Ht1 Hle Ht2.
  pose proof (request_bound_below_overflow t2 Ht2) as Hlt.
  split; [apply Checked_calculate_cost; lia|].
  split; [apply Checked_calculate_cost; lia|].
  pose proof (hourly_cost_pos h) as Hrate.
  pose proof (calculate_latency_pos m t1 b h LOCAL Ht1) as HL1.
  assert (HL : calculate_latency m t1 b h LOCAL
               <= calculate_latency m t2 b h LOCAL).
  { unfold calculate_latency. cbn [DeploymentMode_beq]. cbv zeta.
    assert (Hx : of_int t1 / performance_baselines m h
                 <= of_int t2 / performance_baselines m h)
      by (apply Qdiv_le_mono_r;
          [apply performance_baselines_pos | now apply of_int_le]).
    lra. }
  unfold calculate_cost. cbn [DeploymentMode_beq]. cbv zeta.
  split.
  - apply Qmult_lt_0_compat; assumption.
  - rewrite !(Qmult_comm (_ / 3600)).
    apply Qmult_le_compat_r; [exact HL | now apply Qlt_le_weak].
Qed.

Lemma local_cost_monotone_witness :
  Checked.calculate_cost SEVEN_B 1000 1 GPU_16GB LOCAL
  = inr (calculate_cost SEVEN_B 1000 1 GPU_16GB LOCAL)
  /\ Checked.calculate_cost SEVEN_B 2000 1 GPU_16GB LOCAL
     = inr (calculate_cost SEVEN_B 2000 1 GPU_16GB LOCAL)
  /\ 0 < calculate_cost SEVEN_B 1000 1 GPU_16GB LOCAL
  /\ calculate_cost SEVEN_B 1000 1 GPU_16GB LOCAL
     <= calculate_cost SEVEN_B 2000 1 GPU_16GB LOCAL.
Proof.
  apply (local_cost_monotone SEVEN_B 1000 2000 1 GPU_16GB);
    [reflexivity | discriminate | discriminate].
Defined.

(** ** Compatibility and the recommendation list *)

Lemma generate_recommendations_fired (m : ModelSize) (t b : Z)
    (h : HardwareType) (d : DeploymentMode) :
  generate_recommendations m t b h d
  = Spec.fired
      (Spec.rules (negb (check_hardware_compatibility m h)) m t b h d).
Proof.
  unfold generate_recommendations, Spec.fired, Spec.rules, append.
  generalize (check_hardware_compatibility m h). intros c.
  destruct (4 <? b)%Z, (4096 <? t)%Z, d.
  all: cbn [DeploymentMode_beq Spec.is_LOCAL Spec.is_API andb].
  all: try (destruct c, h, m, (2048 <? t)%Z; reflexivity).
  all: destruct m, (1000 <? t)%Z, (1 <? b)%Z; reflexivity.
Qed.

(** Dropping the rules that do not hold keeps the strings distinct. *)
Lemma fired_NoDup (rs : list (bool * string)) :
  NoDup (map snd rs) -> NoDup (Spec.fired rs).
Proof.
  unfold Spec.fired.
  induction rs as [|[c s] rs IH]; cbn [map filter fst snd]; intros Hnd.
  - constructor.
  - apply NoDup_cons_iff in Hnd as [Hfresh Hnd].
    destruct c; cbn [map snd]; [|now apply IH].
    apply NoDup_cons; [|now apply IH].
    intros Hin. apply Hfresh.
    apply in_map_iff in Hin as ([c' s'] & Hs & Hin).
    apply filter_In in Hin as [Hin _].
    apply in_map_iff. exists (c', s'). auto.
Qed.


(** X8.  The recommendation list never repeats a string and has at most
    four entries; "Hardware incompatible - consider GPU with more VRAM" and
    "CPU inference will be very slow for this model size" never occur
    together, since CPU always passes the compatibility check. *)
Theorem generate_recommendations_shape :
  forall (m : ModelSize) (t b : Z) (h : HardwareType) (d : DeploymentMode),
    NoDup (generate_recommendations m t b h d)
    /\ (length (generate_recommendations m t b h d) <= 4)%nat
    /\ ~ (In "Hardware incompatible - consider GPU with more VRAM"
            (generate_recommendations m t b h d)
          /\ In "CPU inference will be very slow for this model size"
               (generate_recommendations m t b h d)).
Proof.
  intros m t b h d. rewrite generate_recommendations_fired.
  assert (Hcpu : Spec.is_CPU h = true ->
                 check_hardware_compatibility m h = true)
    by (destruct h; intros Hh; solve [reflexivity | discriminate Hh]).
  split; [|split].
  - apply fired_NoDup. unfold Spec.rules. cbn [map snd].
    repeat (constructor; [cbn; intuition discriminate|]). constructor.
  - unfold Spec.fired, Spec.rules.
    destruct (check_hardware_compatibility m h), (Spec.is_CPU h), d,
      (Spec.is_7B m), (Spec.is_GPT4 m), (2048 <? t)%Z, (1000 <? t)%Z,
      (1 <? b)%Z, (4 <? b)%Z, (4096 <? t)%Z; cbn; try lia;
      specialize (Hcpu eq_refl); discriminate Hcpu.
  - rewrite !In_fired. unfold Spec.rules. cbn [In]. intros [H1 H2].
    destruct H1 as [H1|[H1|[H1|[H1|[H1|[H1|[H1|[]]]]]]]];
      try discriminate H1.
    destruct H2 as [H2|[H2|[H2|[H2|[H2|[H2|[H2|[]]]]]]]];
      try discriminate H2.
    injection H1 as H1. injection H2 as H2.
    destruct (check_hardware_compatibility m h), (Spec.is_CPU h), d;
      cbn in H1, H2; try discriminate.
    specialize (Hcpu eq_refl). discriminate Hcpu.
Qed.



(** ** Validation order and enum lookup *)

(** X10.  When several arguments of [calculate] are invalid, the error is
    that of the first invalid one in the order model, hardware, deployment,
    tokens, batch size, whatever the later arguments are. *)
Theorem calculate_error_precedence :
  forall (ms : string) (t b : Z) (hs ds : string),
    (~ In ms Spec.models ->
     calculate ms t b hs ds
     = inl (invalid_input (EnumValueError ms "ModelSize")))
    /\ (In ms Spec.models -> ~ In hs Spec.hardwares ->
        calculate ms t b hs ds
        = inl (invalid_input (EnumValueError hs "HardwareType")))
    /\ (In ms Spec.models -> In hs Spec.hardwares ->
        ~ In ds Spec.deployments ->
        calculate ms t b hs ds
        = inl (invalid_input (EnumValueError ds "DeploymentMode")))
    /\ (In ms Spec.models -> In hs Spec.hardwares ->
        In ds Spec.deployments -> (t <= 0)%Z ->
        calculate ms t b hs ds = inl (Message "Tokens must be positive"))
    /\ (In ms Spec.models -> In hs Spec.hardwares ->
        In ds Spec.deployments -> (0 < t)%Z -> (b <= 0)%Z ->
        calculate ms t b hs ds
        = inl (Message "Batch size must be positive")).
Proof.
  intros ms t b hs ds.
  pose proof (calculate_outcome ms t b hs ds) as Hout.
  repeat split; intros;
    inversion Hout; subst; solve [reflexivity | contradiction | lia].
Qed.

(** X11.  Enum lookup and [.value] are inverse to each other on the three
    enumerations: looking up the value of a member gives that member, a
    successful lookup of a string gives a member with that string as its
    value, and lookup is case-sensitive ("7b", "cpu" and "LOCAL" fail). *)
Theorem enum_round_trip :
  (forall m : ModelSize, by_value (value m) = inr m)
  /\ (forall h : HardwareType, by_value (value h) = inr h)
  /\ (forall d : DeploymentMode, by_value (value d) = inr d)
  /\ (forall (s : string) (m : ModelSize), by_value s = inr m -> value m = s)
  /\ (forall (s : string) (h : HardwareType),
        by_value s = inr h -> value h = s)
  /\ (forall (s : string) (d : DeploymentMode),
        by_value s = inr d -> value d = s)
  /\ by_value (A := ModelSize) "7b" = inl (EnumValueError "7b" "ModelSize")
  /\ by_value (A := HardwareType) "cpu"
     = inl (EnumValueError "cpu" "HardwareType")
  /\ by_value (A := DeploymentMode) "LOCAL"
     = inl (EnumValueError "LOCAL" "DeploymentMode").
Proof.
  repeat split;
    first [ apply ModelSize_by_value | apply HardwareType_by_value
          | apply DeploymentMode_by_value
          | intros s x Hx; now apply by_value_inr in Hx ].
Qed.

(** * Properties of the callers *)

(** ** [min] and [max] with a key *)

Lemma lt_float_iff (a c : Q) : lt_float a c = true <-> a < c.
Proof.
  unfold lt_float. rewrite negb_true_iff. split.
  - intros Hle. apply Qnot_le_lt. intros Hca.
    apply Qle_bool_iff in Hca. congruence.
  - intros Hlt. destruct (Qle_bool c a) eqn:Hle; [|reflexivity].
    apply Qle_bool_iff in Hle. exfalso. now apply (Qlt_not_le a c).
Qed.

Lemma lt_float_false_iff (a c : Q) : lt_float a c = false <-> c <= a.
Proof.
  unfold lt_float. rewrite negb_false_iff. apply Qle_bool_iff.
Qed.

Lemma min_with_In {A : Type} (key : A -> Q) (rest : list A) (best : A) :
  In (min_with key best rest) (best :: rest).
Proof.
  revert best. induction rest as [|x rest IH]; intros best; cbn [min_with].
  - now left.
  - destruct (IH (if lt_float (key x) (key best) then x else best))
      as [Heq|Hin].
    + rewrite <- Heq. destruct (lt_float (key x) (key best));
        [right; now left | now left].
    + right. now right.
Qed.

Lemma min_with_le_best {A : Type} (key : A -> Q) (rest : list A) (best : A) :
  key (min_with key best rest) <= key best.
Proof.
  revert best. induction rest as [|x rest IH]; intros best; cbn [min_with].
  - apply Qle_refl.
  - eapply Qle_trans; [apply IH|].
    destruct (lt_float (key x) (key best)) eqn:Hlt; [|apply Qle_refl].
    apply lt_float_iff in Hlt. now apply Qlt_le_weak.
Qed.

Lemma min_with_le {A : Type} (key : A -> Q) (rest : list A) (best x : A) :
  In x (best :: rest) -> key (min_with key best rest) <= key x.
Proof.
  revert best. induction rest as [|y rest IH]; intros best Hin.
  - destruct Hin as [<-|[]]. apply Qle_refl.
  - cbn [min_with]. destruct Hin as [<-|[<-|Hin]].
    + eapply Qle_trans; [apply min_with_le_best|].
      destruct (lt_float (key y) (key best)) eqn:Hlt; [|apply Qle_refl].
      apply lt_float_iff in Hlt. now apply Qlt_le_weak.
    + eapply Qle_trans; [apply min_with_le_best|].
      destruct (lt_float (key y) (key best)) eqn:Hlt; [apply Qle_refl|].
      now apply lt_float_false_iff in Hlt.
    + apply IH. now right.
Qed.

(** Ties keep the earlier element. *)
Lemma min_with_keeps_best {A : Type} (key : A -> Q) (rest : list A)
    (best : A) :
  (forall x, In x rest -> key best <= key x) ->
  min_with key best rest = best.
Proof.
  revert best. induction rest as [|x rest IH]; intros best Hall;
    cbn [min_with]; [reflexivity|].
  assert (Hx : lt_float (key x) (key best) = false)
    by (apply lt_float_false_iff, Hall; now left).
  rewrite Hx. apply IH. intros y Hy. apply Hall. now right.
Qed.

(** ** [ScenarioTester._analyze_local_scenario] *)

Lemma compatible_results_In (results : list ScenarioTester.entry)
    (r : ScenarioTester.row) :
  In r (ScenarioTester.compatible_results results) <->
  In (ScenarioTester.Measured r) results
  /\ ScenarioTester.row_compatible r = true.
Proof.
  induction results as [|e results IH]; cbn.
  - tauto.
  - destruct e as [r'|hw err].
    + destruct (ScenarioTester.row_compatible r') eqn:Hc; cbn; rewrite IH.
      * split.
        -- intros [<-|[Hin Hr]]; auto.
        -- intros [[[= <-]|Hin] Hr]; auto.
      * split.
        -- intros [Hin Hr]; auto.
        -- intros [[[= <-]|Hin] Hr]; [congruence | auto].
    + rewrite IH. split.
      * intros [Hin Hr]; auto.
      * intros [[Hd|Hin] Hr]; [discriminate Hd | auto].
Qed.

(** X12.  [_analyze_local_scenario] reports "No compatible hardware found"
    exactly when no entry of [results] is a measured one with a true
    "compatible"; failed entries are skipped.  Otherwise "best_performance"
    is the hardware of a compatible entry whose latency is at most that of
    every compatible entry, "lowest_cost" the hardware of one whose cost is
    at most that of every compatible entry, and the first two
    recommendations name these two. *)
Theorem analyze_local_scenario_best :
  forall results : list ScenarioTester.entry,
    match ScenarioTester._analyze_local_scenario results with
    | ScenarioTester.NoCompatible status recs =>
        status = "No compatible hardware found"
        /\ recs = ["Upgrade to GPU with 16GB+ VRAM"]
        /\ forall r, In (ScenarioTester.Measured r) results ->
                     ScenarioTester.row_compatible r = false
    | ScenarioTester.Compatible status best cheapest _ _ recs =>
        status = "Compatible hardware available"
        /\ recs = ["Use " ++ best ++ " for best performance";
                   "Use " ++ cheapest ++ " for lowest cost";
                   "Consider hardware investment for production use"]
        /\ (exists rb : ScenarioTester.row,
              In (ScenarioTester.Measured rb) results
              /\ ScenarioTester.row_compatible rb = true
              /\ ScenarioTester.row_hardware rb = best
              /\ forall r, In (ScenarioTester.Measured r) results ->
                           ScenarioTester.row_compatible r = true ->
                           ScenarioTester.row_latency_seconds rb
                           <= ScenarioTester.row_latency_seconds r)
        /\ (exists rc : ScenarioTester.row,
              In (ScenarioTester.Measured rc) results
              /\ ScenarioTester.row_compatible rc = true
              /\ ScenarioTester.row_hardware rc = cheapest
              /\ forall r, In (ScenarioTester.Measured r) results ->
                           ScenarioTester.row_compatible r = true ->
                           ScenarioTester.row_cost_usd rc
                           <= ScenarioTester.row_cost_usd r)
    end.
Proof.
  intros results. unfold ScenarioTester._analyze_local_scenario.
  destruct (ScenarioTester.compatible_results results) as [|first rest]
    eqn:Hcr.
  - split; [reflexivity|]. split; [reflexivity|].
    intros r Hin.
    destruct (ScenarioTester.row_compatible r) eqn:Hc; [|reflexivity].
    assert (Hr : In r (ScenarioTester.compatible_results results))
      by (apply compatible_results_In; auto).
    rewrite Hcr in Hr. destruct Hr.
  - cbv zeta. split; [reflexivity|]. split; [reflexivity|]. split.
    + exists (min_with ScenarioTester.row_latency_seconds first rest).
      pose proof (min_with_In ScenarioTester.row_latency_seconds rest first)
        as Hin.
      rewrite <- Hcr in Hin. apply compatible_results_In in Hin as [Hin Hc].
      repeat split; try assumption.
      intros r Hr Hrc. apply min_with_le. rewrite <- Hcr.
      apply compatible_results_In. auto.
    + exists (min_with ScenarioTester.row_cost_usd first rest).
      pose proof (min_with_In ScenarioTester.row_cost_usd rest first) as Hin.
      rewrite <- Hcr in Hin. apply compatible_results_In in Hin as [Hin Hc].
      repeat split; try assumption.
      intros r Hr Hrc. apply min_with_le. rewrite <- Hcr.
      apply compatible_results_In. auto.
Qed.

(** ** [ScenarioTester.test_scenario_1_local_deployment] *)

Lemma run_hardware_valid (m : ModelSize) (t b : Z) (d : DeploymentMode)
    (h : HardwareType) :
  (0 < t)%Z -> (0 < b)%Z ->
  ScenarioTester.run_hardware (value m) t b (value d) (value h)
  = if Checked.too_large m t b
    then ScenarioTester.Failed (value h) division_overflow
    else ScenarioTester.Measured
           {| ScenarioTester.row_hardware := value h;
              ScenarioTester.row_latency_seconds :=
                calculate_latency m t b h d;
              ScenarioTester.row_memory_gb := calculate_memory_usage m t b h;
              ScenarioTester.row_cost_usd := calculate_cost m t b h d;
              ScenarioTester.row_compatible :=
                check_hardware_compatibility m h;
              ScenarioTester.row_recommendations :=
                generate_recommendations m t b h d |}.
Proof.
  intros Ht Hb. unfold ScenarioTester.run_hardware.
  rewrite Checked_calculate_valid by assumption.
  destruct (Checked.too_large m t b); reflexivity.
Qed.

(** X13.  Run over the seven hardware classes with any valid model and
    deployment mode and positive tokens and batch size, the loop of
    [test_scenario_1_local_deployment] yields seven entries in the order of
    [hardware_configs].  When the request is within the range of the
    divisions, all seven are measured and only the CPU one is compatible, so
    the summary names "CPU" both as best performance and as lowest cost.
    When it is not, all seven carry the [OverflowError] caught by the loop
    and the summary is "No compatible hardware found".
    [test_scenario_1_local_deployment] itself is the case "7B", 1000
    tokens, batch size 1, "local", which is within the range. *)
Theorem scenario_1_recommends_CPU :
  forall (m : ModelSize) (t b : Z) (d : DeploymentMode),
    (0 < t)%Z -> (0 < b)%Z ->
    let results :=
      map (ScenarioTester.run_hardware (value m) t b (value d))
        ScenarioTester.hardware_configs in
    if Checked.too_large m t b
    then
      results
      = map (fun hardware =>
               ScenarioTester.Failed hardware
                 (OverflowError
                    "integer division result too large for a float"))
          ScenarioTester.hardware_configs
      /\ ScenarioTester._analyze_local_scenario results
         = ScenarioTester.NoCompatible "No compatible hardware found"
             ["Upgrade to GPU with 16GB+ VRAM"]
    else
      (exists rows : list ScenarioTester.row,
         results = map ScenarioTester.Measured rows
         /\ map ScenarioTester.row_hardware rows
            = ScenarioTester.hardware_configs)
      /\ map ScenarioTester.row_hardware
           (ScenarioTester.compatible_results results) = ["CPU"]
      /\ exists performance_range cost_range : fstring,
           ScenarioTester._analyze_local_scenario results
           = ScenarioTester.Compatible "Compatible hardware available"
               "CPU" "CPU" performance_range cost_range
               ["Use CPU for best performance";
                "Use CPU for lowest cost";
                "Consider hardware investment for production use"].
Proof.
  intros m t b d Ht Hb results.
  assert (Hres : results
                 = map (fun h : HardwareType =>
                          ScenarioTester.run_hardware (value m) t b
                            (value d) (value h)) members)
    by reflexivity.
  cbn [members HardwareType_Enum map] in Hres.
  rewrite !run_hardware_valid in Hres by assumption.
  destruct (Checked.too_large m t b).
  - rewrite Hres. split; reflexivity.
  - assert (Hcompat : ScenarioTester.compatible_results results
                      = [ {| ScenarioTester.row_hardware := "CPU";
                             ScenarioTester.row_latency_seconds :=
                               calculate_latency m t b CPU d;
                             ScenarioTester.row_memory_gb :=
                               calculate_memory_usage m t b CPU;
                             ScenarioTester.row_cost_usd :=
                               calculate_cost m t b CPU d;
                             ScenarioTester.row_compatible := true;
                             ScenarioTester.row_recommendations :=
                               generate_recommendations m t b CPU d |} ]).
    { rewrite Hres.
      cbn [ScenarioTester.compatible_results ScenarioTester.row_compatible].
      change (check_hardware_compatibility m CPU) with true.
      rewrite !gpu_never_compatible by discriminate. reflexivity. }
    split; [|split].
    + rewrite Hres. eexists (_ :: _ :: _ :: _ :: _ :: _ :: _ :: nil).
      split; reflexivity.
    + rewrite Hcompat. reflexivity.
    + unfold ScenarioTester._analyze_local_scenario. rewrite Hcompat.
      cbn. eauto.
Qed.

Lemma scenario_1_recommends_CPU_witness :
  let results := fst ScenarioTester.test_scenario_1_local_deployment in
  (exists rows : list ScenarioTester.row,
     results = map ScenarioTester.Measured rows
     /\ map ScenarioTester.row_hardware rows
        = ScenarioTester.hardware_configs)
  /\ map ScenarioTester.row_hardware
       (ScenarioTester.compatible_results results) = ["CPU"]
  /\ exists performance_range cost_range : fstring,
       ScenarioTester._analyze_local_scenario results
       = ScenarioTester.Compatible "Compatible hardware available"
           "CPU" "CPU" performance_range cost_range
           ["Use CPU for best performance";
            "Use CPU for lowest cost";
            "Consider hardware investment for production use"].
Proof.
  exact (scenario_1_recommends_CPU SEVEN_B 1000 1 LOCAL eq_refl eq_refl).
Defined.

(** ** [ScenarioTester._analyze_api_scenario] *)

Lemma api_cost_linear (m : ModelSize) (t b : Z) (h : HardwareType) :
  calculate_cost m t b h API
  == of_int t * ((0.7 * input (api_pricing m)
                  + 0.3 * output (api_pricing m)) / 1000).
Proof.
  unfold calculate_cost. cbn [DeploymentMode_beq]. cbv zeta. field.
Qed.

(** X14.  For the API result of a request of [t] tokens within the range,
    [_analyze_api_scenario] reports as "tokens_per_second" the number
    1000 / latency, whatever [t] is: never the fallback 0, and always below
    500.  As "cost_per_1000_tokens" it reports the cost of the request times
    1000 / 500, that is twice the cost of the request, whatever [t] is: for
    a request of 1000 tokens or more on a priced model this is more than
    1.9 times what [calculate_cost] gives for 1000 tokens, and for 7B it is
    0. *)
Theorem analyze_api_scenario_figures :
  forall (m : ModelSize) (t b : Z) (h : HardwareType) (model_name : string),
    (0 < t)%Z -> (0 < b)%Z -> Checked.too_large m t b = false ->
    exists (r : CalculationResult) (tps cost1000 : Q),
      Checked.calculate (value m) t b (value h) "api" = inr r
      /\ ScenarioTester.api_tokens_per_second
           (ScenarioTester._analyze_api_scenario r model_name)
         = [Fixed 1 tps]
      /\ tps = 1000 / latency_seconds r
      /\ 0 < tps /\ tps < 500
      /\ ScenarioTester.api_cost_per_1000_tokens
           (ScenarioTester._analyze_api_scenario r model_name)
         = [Lit "$"; Fixed 6 cost1000]
      /\ cost1000 = cost_per_request_usd r * truediv 1000 500
      /\ cost1000 == 2 * cost_per_request_usd r
      /\ ((1000 <= t)%Z ->
          if ModelSize_beq m SEVEN_B then cost1000 == 0
          else 1.9 * calculate_cost m 1000 b h API < cost1000).
Proof.
  intros m t b h model_name Ht Hb Hfit.
  pose proof (calculate_latency_pos m t b h API Ht) as HL.
  exists (assembled m t b h API),
         (1000 / calculate_latency m t b h API),
         (calculate_cost m t b h API * truediv 1000 500).
  split.
  { pose proof (Checked_calculate_valid m t b h API Ht Hb) as Hc.
    rewrite Hfit in Hc. exact Hc. }
  unfold ScenarioTester._analyze_api_scenario.
  cbn [assembled latency_seconds cost_per_request_usd
       ScenarioTester.api_tokens_per_second
       ScenarioTester.api_cost_per_1000_tokens].
  assert (Hlt : lt_float 0 (calculate_latency m t b h API) = true)
    by now apply lt_float_iff.
  rewrite Hlt.
  assert (H2 : 2 < calculate_latency m t b h API).
  { unfold calculate_latency. cbn [DeploymentMode_beq]. cbv zeta.
    assert (Hx : 0 < truediv t 50)
      by (apply truediv_pos; [exact Ht | reflexivity]).
    lra. }
  split; [reflexivity|]. split; [reflexivity|]. split; [|split].
  - apply Qlt_shift_div_l; [exact HL | lra].
  - apply Qlt_shift_div_r; [exact HL | lra].
  - split; [reflexivity|]. split; [reflexivity|]. split.
    + unfold truediv, of_int. field.
    + intros H1000.
      apply of_int_le in H1000. change (of_int 1000) with 1000 in H1000.
      assert (Hscale : forall c : Q,
                 0 < c -> 1.9 * (1000 * c) < of_int t * c * truediv 1000 500).
      { intros c Hc.
        assert (Hm : 1000 * c <= of_int t * c)
          by (apply Qmult_le_compat_r; [exact H1000 | now apply Qlt_le_weak]).
        assert (Hp : 0 < 1000 * c)
          by (apply Qmult_lt_0_compat; [reflexivity | exact Hc]).
        setoid_replace (of_int t * c * truediv 1000 500)
          with (2 * (of_int t * c)) by (unfold truediv, of_int; field).
        lra. }
      destruct m; cbn [ModelSize_beq]; rewrite !api_cost_linear;
        cbn [api_pricing input output].
      * unfold truediv, of_int. field.
      * change (of_int 1000) with 1000. apply Hscale. reflexivity.
      * change (of_int 1000) with 1000. apply Hscale. reflexivity.
Qed.

Lemma analyze_api_scenario_figures_witness :
  exists (r : CalculationResult) (tps cost1000 : Q),
    Checked.calculate "GPT-4" 2000 1 "GPU_8GB" "api" = inr r
    /\ ScenarioTester.api_tokens_per_second
         (ScenarioTester._analyze_api_scenario r "GPT-4")
       = [Fixed 1 tps]
    /\ tps = 1000 / latency_seconds r
    /\ 0 < tps /\ tps < 500
    /\ ScenarioTester.api_cost_per_1000_tokens
         (ScenarioTester._analyze_api_scenario r "GPT-4")
       = [Lit "$"; Fixed 6 cost1000]
    /\ cost1000 = cost_per_request_usd r * truediv 1000 500
    /\ cost1000 == 2 * cost_per_request_usd r
    /\ ((1000 <= 2000)%Z ->
        if ModelSize_beq GPT4 SEVEN_B then cost1000 == 0
        else 1.9 * calculate_cost GPT4 1000 1 GPU_8GB API < cost1000).
Proof.
  apply (analyze_api_scenario_figures GPT4 2000 1 GPU_8GB "GPT-4");
    reflexivity.
Defined.

(** ** [ScenarioTester._generate_recommendations] *)

Lemma nonempty_filter {A : Type} (p : A -> bool) (l : list A) :
  ScenarioTester.nonempty (filter p l) = true <->
  exists x, In x l /\ p x = true.
Proof.
  split.
  - destruct (filter p l) as [|x l'] eqn:Hf; [discriminate|].
    intros _. exists x. apply filter_In. rewrite Hf. now left.
  - intros (x & Hin & Hp).
    assert (Hx : In x (filter p l)) by (apply filter_In; auto).
    destruct (filter p l); [destruct Hx | reflexivity].
Qed.

(** X15.  [_generate_recommendations] never returns an empty list.  On
    empty data it returns the single line "No valid comparison data
    available".  Otherwise it returns between two and five lines: the first
    names a scenario of least cost and the second a scenario of least
    latency among the data, and the line "Consider hybrid approach: ..." is
    present exactly when the data hold both a "Local" and an "API"
    entry. *)
Theorem scenario_recommendations_shape :
  forall data : list ScenarioTester.comparison,
    ScenarioTester._generate_recommendations data <> []
    /\ (data = [] ->
        ScenarioTester._generate_recommendations data
        = [[Lit "No valid comparison data available"]])
    /\ (data <> [] ->
        exists (bc bl : ScenarioTester.comparison) (tail : list fstring),
          In bc data /\ In bl data
          /\ (forall d, In d data ->
                ScenarioTester.cost_per_1000_tokens bc
                <= ScenarioTester.cost_per_1000_tokens d)
          /\ (forall d, In d data ->
                ScenarioTester.latency_per_1000_tokens bl
                <= ScenarioTester.latency_per_1000_tokens d)
          /\ ScenarioTester._generate_recommendations data
             = [Lit ("Best cost option: " ++ ScenarioTester.scenario bc
                     ++ " ($");
                Fixed 6 (ScenarioTester.cost_per_1000_tokens bc);
                Lit " per 1000 tokens)"]
               :: [Lit ("Best performance: " ++ ScenarioTester.scenario bl
                        ++ " (");
                   Fixed 1 (ScenarioTester.latency_per_1000_tokens bl);
                   Lit "s per 1000 tokens)"]
               :: tail
          /\ (length tail <= 3)%nat
          /\ (In [Lit "Consider hybrid approach: local for development, API for production"]
                (ScenarioTester._generate_recommendations data)
              <-> (exists d, In d data
                             /\ ScenarioTester.deployment_type d = "Local")
                  /\ (exists d, In d data
                                /\ ScenarioTester.deployment_type d = "API"))).
Proof.
  intros data. destruct data as [|first rest].
  - split; [discriminate|]. split; [reflexivity|]. intros Hne. now elim Hne.
  - split; [|split; [discriminate|]].
    + unfold ScenarioTester._generate_recommendations, add. cbv zeta.
      destruct (_ && _), (ScenarioTester.nonempty _),
        (ScenarioTester.nonempty _); discriminate.
    + intros _.
      set (is_local := fun d : ScenarioTester.comparison =>
                         String.eqb (ScenarioTester.deployment_type d)
                           "Local").
      set (is_api := fun d : ScenarioTester.comparison =>
                       String.eqb (ScenarioTester.deployment_type d) "API").
      pose proof (nonempty_filter is_local (first :: rest)) as Hlocal.
      pose proof (nonempty_filter is_api (first :: rest)) as Hapi.
      assert (Hl : (exists d, In d (first :: rest)
                              /\ ScenarioTester.deployment_type d = "Local")
                   <-> ScenarioTester.nonempty
                         (filter is_local (first :: rest)) = true).
      { rewrite Hlocal. split; intros (d & Hin & Hd); exists d; split; auto.
        - unfold is_local. now apply String.eqb_eq.
        - now apply String.eqb_eq. }
      assert (Ha : (exists d, In d (first :: rest)
                              /\ ScenarioTester.deployment_type d = "API")
                   <-> ScenarioTester.nonempty
                         (filter is_api (first :: rest)) = true).
      { rewrite Hapi. split; intros (d & Hin & Hd); exists d; split; auto.
        - unfold is_api. now apply String.eqb_eq.
        - now apply String.eqb_eq. }
      clear Hlocal Hapi.
      unfold ScenarioTester._generate_recommendations, add. cbv zeta.
      fold is_local. fold is_api.
      exists (min_with ScenarioTester.cost_per_1000_tokens first rest),
             (min_with ScenarioTester.latency_per_1000_tokens first rest).
      destruct (ScenarioTester.nonempty (filter is_local (first :: rest)))
        eqn:El;
        destruct (ScenarioTester.nonempty (filter is_api (first :: rest)))
          eqn:Ea;
        cbn [andb app];
        (eexists; split; [apply min_with_In|]; split; [apply min_with_In|];
         split; [intros d Hd; now apply min_with_le|];
         split; [intros d Hd; now apply min_with_le|];
         split; [reflexivity|]; split; [cbn; lia|]);
        rewrite Hl, Ha; cbn [In]; split;
        try solve [ intros [? ?]; discriminate
                  | intros _; auto 10
                  | intros Hin;
                    repeat match goal with
                           | H : _ \/ _ |- _ => destruct H
                           | H : False |- _ => contradiction
                           | H : _ = _ |- _ => discriminate H
                           end ].
Qed.

(** ** [AdvancedAnalyzer] *)

Lemma analysis_of_fits (rpd : Z) (s : AdvancedAnalyzer.strategy)
    (r : CalculationResult) :
  (Z.abs rpd < Checked.float_overflow)%Z ->
  AdvancedAnalyzer.analysis_of rpd s r = inr (stored_analysis rpd s r).
Proof.
  intros Hrpd. unfold AdvancedAnalyzer.analysis_of.
  rewrite Checked_to_float_fits by assumption. cbn [bindR].
  rewrite Checked_truediv_fits by lia. reflexivity.
Qed.

Lemma workload_bound_fits (n : Z) :
  (Z.abs n <= Checked.workload_bound)%Z ->
  (Z.abs n < Checked.float_overflow)%Z
  /\ (Z.abs n <= Checked.request_bound)%Z.
Proof.
  intros Hn.
  assert (H1 : (Checked.workload_bound < Checked.float_overflow)%Z)
    by reflexivity.
  assert (H2 : (Checked.workload_bound <= Checked.request_bound)%Z)
    by (apply Z.leb_le; vm_compute; reflexivity).
  lia.
Qed.

Lemma analyze_deployment_strategies_valid (t rpd : Z) :
  (0 < t)%Z -> (t <= Checked.workload_bound)%Z ->
  (Z.abs rpd <= Checked.workload_bound)%Z ->
  AdvancedAnalyzer.analyze_deployment_strategies t rpd
  = inr [ ("local_7b",
           stored_analysis rpd
             {| AdvancedAnalyzer.name := "Mistral 7B (Local)";
                AdvancedAnalyzer.model := "7B";
                AdvancedAnalyzer.deployment := "local";
                AdvancedAnalyzer.hardware := "GPU_16GB" |}
             (assembled SEVEN_B t 1 GPU_16GB LOCAL));
          ("api_13b",
           stored_analysis rpd
             {| AdvancedAnalyzer.name := "LangChain 13B (API)";
                AdvancedAnalyzer.model := "13B";
                AdvancedAnalyzer.deployment := "api";
                AdvancedAnalyzer.hardware := "GPU_8GB" |}
             (assembled THIRTEEN_B t 1 GPU_8GB API));
          ("api_gpt4",
           stored_analysis rpd
             {| AdvancedAnalyzer.name := "GPT-4 (API)";
                AdvancedAnalyzer.model := "GPT-4";
                AdvancedAnalyzer.deployment := "api";
                AdvancedAnalyzer.hardware := "GPU_8GB" |}
             (assembled GPT4 t 1 GPU_8GB API)) ].
Proof.
  intros Ht Htb Hrpd.
  destruct (workload_bound_fits rpd Hrpd) as [Hr _].
  destruct (workload_bound_fits t) as [_ Ht']; [lia|].
  assert (Hone : (0 < 1 <= Checked.request_bound)%Z)
    by (split; [reflexivity | discriminate]).
  unfold AdvancedAnalyzer.analyze_deployment_strategies,
    AdvancedAnalyzer.strategies.
  cbn [AdvancedAnalyzer.analyze_all].
  unfold AdvancedAnalyzer.analyze_strategy.
  cbn [AdvancedAnalyzer.model AdvancedAnalyzer.hardware
       AdvancedAnalyzer.deployment].
  pose proof (Checked_calculate_valid SEVEN_B t 1 GPU_16GB LOCAL Ht eq_refl)
    as H1.
  pose proof (Checked_calculate_valid THIRTEEN_B t 1 GPU_8GB API Ht eq_refl)
    as H2.
  pose proof (Checked_calculate_valid GPT4 t 1 GPU_8GB API Ht eq_refl) as H3.
  rewrite request_bound_fits in H1, H2, H3 by lia.
  cbn [value ModelSize_Enum HardwareType_Enum DeploymentMode_Enum]
    in H1, H2, H3.
  rewrite H1, H2, H3. cbn [bindR].
  rewrite !analysis_of_fits by assumption. reflexivity.
Qed.


Lemma local_7b_cost_per_token (t : Z) :
  calculate_cost SEVEN_B t 1 GPU_16GB LOCAL == of_int t * (44011 # 28743750000).
Proof.
  unfold calculate_cost, calculate_latency, of_int.
  cbn [DeploymentMode_beq hardware_specs cost_usd power_watts
       performance_baselines]. cbv zeta.
  change (inject_Z (3 * 365 * 8)) with 8760. field.
Qed.

Lemma latency_forms (t : Z) :
  calculate_latency SEVEN_B t 1 GPU_16GB LOCAL == of_int t * (11 # 350)
  /\ (forall m : ModelSize,
        calculate_latency m t 1 GPU_8GB API == 2 + of_int t * (1 # 50)).
Proof.
  split; [|intros m];
    unfold calculate_latency, truediv, of_int;
    cbn [DeploymentMode_beq performance_baselines]; cbv zeta;
    try change (inject_Z 50) with 50; field.
Qed.

Ltac simpl_rows :=
  cbv iota;
  cbn [AdvancedAnalyzer.strategy_name AdvancedAnalyzer.name
       AdvancedAnalyzer.monthly_cost AdvancedAnalyzer.per_request_latency
       stored_analysis assembled cost_per_request_usd latency_seconds].

(** X17.  For positive tokens and requests per day, both up to 10^100, the
    recommendations of the analyzer on its own three strategies are four
    lines: the best cost option is always "LangChain 13B (API)"; the best
    performance is "Mistral 7B (Local)" for up to 175 tokens and
    "LangChain 13B (API)" above; then the budget line; and always the
    hybrid-approach line. *)
Theorem analyzer_recommendations :
  forall (t rpd : Z) (budget : Q),
    (0 < t)%Z -> (t <= Checked.workload_bound)%Z ->
    (0 < rpd)%Z -> (rpd <= Checked.workload_bound)%Z ->
    exists (results : list (string * AdvancedAnalyzer.analysis))
           (cost latency : Q) (budget_line : fstring),
      AdvancedAnalyzer.analyze_deployment_strategies t rpd = inr results
      /\ AdvancedAnalyzer.generate_recommendations results budget
         = Some
             [ [Lit "Best cost option: LangChain 13B (API) ($";
                Fixed 2 cost; Lit "/month)"];
               [Lit ("Best performance: "
                     ++ (if (t <=? 175)%Z then "Mistral 7B (Local)"
                         else "LangChain 13B (API)") ++ " (");
                Fixed 1 latency; Lit "s)"];
               budget_line;
               [Lit "Consider hybrid approach: local for development, API for production"] ]
      /\ cost == calculate_cost THIRTEEN_B t 1 GPU_8GB API * of_int rpd * 30
      /\ latency
         == (if (t <=? 175)%Z
             then calculate_latency SEVEN_B t 1 GPU_16GB LOCAL
             else calculate_latency THIRTEEN_B t 1 GPU_8GB API).
Proof.
  intros t rpd budget Ht Htb Hrpd Hrb.
  pose proof (of_int_pos t Ht) as HT.
  pose proof (of_int_pos rpd Hrpd) as HR.
  assert (HTR : 0 < of_int t * of_int rpd) by now apply Qmult_lt_0_compat.
  pose proof (local_7b_cost_per_token t) as Hc1.
  pose proof (api_cost_linear THIRTEEN_B t 1 GPU_8GB) as Hc2.
  pose proof (api_cost_linear GPT4 t 1 GPU_8GB) as Hc3.
  cbn [api_pricing input output] in Hc2, Hc3.
  assert (Hr2 : (0.7 * 0.0002 + 0.3 * 0.0004) / 1000 == 26 # 100000000)
    by reflexivity.
  assert (Hr3 : (0.7 * 0.01 + 0.3 * 0.03) / 1000 == 16 # 1000000)
    by reflexivity.
  rewrite Hr2 in Hc2. rewrite Hr3 in Hc3.
  destruct (latency_forms t) as [HL1 HLapi].
  pose proof (HLapi THIRTEEN_B) as HL2. pose proof (HLapi GPT4) as HL3.
  assert (Hres : (Z.abs rpd <= Checked.workload_bound)%Z) by lia.
  apply (analyze_deployment_strategies_valid t rpd Ht Htb) in Hres.
  match type of Hres with _ = inr ?l => exists l end.
  rewrite Hres. clear Hres.
  match goal with
  | |- exists c l b, inr ?r = inr ?r /\ @?P c l b =>
      cut (exists c l b, P c l b);
      [intros (c & l & b & HP); exists c, l, b; split; [reflexivity|exact HP]|]
  end.
  unfold AdvancedAnalyzer.generate_recommendations. cbv zeta.
  cbn [map snd min_with stored_analysis
       AdvancedAnalyzer.monthly_cost AdvancedAnalyzer.per_request_latency
       assembled cost_per_request_usd latency_seconds].
  (* best cost: the 13B API strategy replaces the local one and stays *)
  assert (E1 : lt_float
                 (calculate_cost THIRTEEN_B t 1 GPU_8GB API * of_int rpd * 30)
                 (calculate_cost SEVEN_B t 1 GPU_16GB LOCAL * of_int rpd * 30)
               = true).
  { apply lt_float_iff. rewrite Hc1, Hc2. lra. }
  assert (E2 : lt_float
                 (calculate_cost GPT4 t 1 GPU_8GB API * of_int rpd * 30)
                 (calculate_cost THIRTEEN_B t 1 GPU_8GB API * of_int rpd * 30)
               = false).
  { apply lt_float_false_iff. rewrite Hc2, Hc3. lra. }
  rewrite E1. simpl_rows. rewrite E2. simpl_rows.
  (* best performance: decided by the 175-token threshold *)
  destruct (Z.leb_spec t 175) as [Hle|Hgt].
  - apply of_int_le in Hle. change (of_int 175) with 175 in Hle.
    assert (E3 : lt_float (calculate_latency THIRTEEN_B t 1 GPU_8GB API)
                   (calculate_latency SEVEN_B t 1 GPU_16GB LOCAL) = false)
      by (apply lt_float_false_iff; rewrite HL1, HL2; lra).
    assert (E4 : lt_float (calculate_latency GPT4 t 1 GPU_8GB API)
                   (calculate_latency SEVEN_B t 1 GPU_16GB LOCAL) = false)
      by (apply lt_float_false_iff; rewrite HL1, HL3; lra).
    rewrite E3. simpl_rows. rewrite E4. simpl_rows.
    unfold add; cbn [app].
    destruct (ScenarioTester.nonempty (map fst _));
      do 3 eexists; (split; [reflexivity|]); split; reflexivity.
  - apply of_int_lt in Hgt. change (of_int 175) with 175 in Hgt.
    assert (E3 : lt_float (calculate_latency THIRTEEN_B t 1 GPU_8GB API)
                   (calculate_latency SEVEN_B t 1 GPU_16GB LOCAL) = true)
      by (apply lt_float_iff; rewrite HL1, HL2; lra).
    assert (E4 : lt_float (calculate_latency GPT4 t 1 GPU_8GB API)
                   (calculate_latency THIRTEEN_B t 1 GPU_8GB API) = false)
      by (apply lt_float_false_iff; rewrite HL2, HL3; apply Qle_refl).
    rewrite E3. simpl_rows. rewrite E4. simpl_rows.
    unfold add; cbn [app].
    destruct (ScenarioTester.nonempty (map fst _));
      do 3 eexists; (split; [reflexivity|]); split; reflexivity.
Qed.

Lemma analyzer_recommendations_witness :
  exists (results : list (string * AdvancedAnalyzer.analysis))
         (cost latency : Q) (budget_line : fstring),
    AdvancedAnalyzer.analyze_deployment_strategies 1000 50 = inr results
    /\ AdvancedAnalyzer.generate_recommendations results 50
       = Some
           [ [Lit "Best cost option: LangChain 13B (API) ($";
              Fixed 2 cost; Lit "/month)"];
             [Lit ("Best performance: "
                   ++ (if (1000 <=? 175)%Z then "Mistral 7B (Local)"
                       else "LangChain 13B (API)") ++ " (");
              Fixed 1 latency; Lit "s)"];
             budget_line;
             [Lit "Consider hybrid approach: local for development, API for production"] ]
    /\ cost == calculate_cost THIRTEEN_B 1000 1 GPU_8GB API * of_int 50 * 30
    /\ latency
       == (if (1000 <=? 175)%Z
           then calculate_latency SEVEN_B 1000 1 GPU_16GB LOCAL
           else calculate_latency THIRTEEN_B 1000 1 GPU_8GB API).
Proof.
  apply (analyzer_recommendations 1000 50 50);
    [reflexivity | discriminate | reflexivity | discriminate].
Defined.

(** ** [SuccessCriteriaVerifier] *)

(** A loop that can only lower [passed] returns true exactly when it starts
    from true and no iteration lowers it. *)
Lemma fold_left_passed {A : Type} (step : bool -> A -> bool)
    (ok : A -> bool) (l : list A) (passed : bool) :
  (forall p a, step p a = ok a && p) ->
  fold_left step l passed = forallb ok l && passed.
Proof.
  intros Hstep. revert passed.
  induction l as [|a l IH]; intros passed; cbn [fold_left forallb].
  - reflexivity.
  - rewrite IH, Hstep. destruct (ok a), (forallb ok l), passed; reflexivity.
Qed.

Lemma calculate_7B_local_compatible (hardware : string) :
  (In hardware Spec.hardwares ->
   exists r, calculate "7B" 1000 1 hardware "local" = inr r
             /\ hardware_compatible r = String.eqb hardware "CPU")
  /\ (~ In hardware Spec.hardwares ->
      exists e, calculate "7B" 1000 1 hardware "local" = inl e).
Proof.
  split.
  - rewrite hardwares_values. intros (h & <- & _)%in_map_iff.
    exists (assembled SEVEN_B 1000 1 h LOCAL).
    split; [apply (calculate_valid SEVEN_B 1000 1 h LOCAL); reflexivity|].
    destruct h; reflexivity.
  - intros Hnot. eexists.
    apply calculate_bad_hardware; [cbn; tauto | exact Hnot].
Qed.

(** X18.  The loop of [test_criterion_2_hardware_compatibility] returns
    True exactly for tables whose hardware strings are all valid and that
    expect compatibility of "CPU" and of nothing else.  The table of the
    repository expects GPU_16GB, GPU_24GB and GPU_32GB to be compatible, so
    the test returns False. *)
Theorem criterion_2_passes_iff :
  forall test_cases : list (string * bool * string),
    (SuccessCriteriaVerifier.criterion_2_loop test_cases = true <->
     forall hardware expected description,
       In (hardware, expected, description) test_cases ->
       In hardware Spec.hardwares
       /\ expected = String.eqb hardware "CPU")
    /\ SuccessCriteriaVerifier.test_criterion_2_hardware_compatibility
       = false.
Proof.
  intros test_cases. split; [|reflexivity].
  unfold SuccessCriteriaVerifier.criterion_2_loop.
  rewrite (fold_left_passed _
             (fun case : string * bool * string =>
                SuccessCriteriaVerifier.check_compatibility_case true case)).
  2: { intros p [[hw ex] ds].
       unfold SuccessCriteriaVerifier.check_compatibility_case.
       destruct (calculate "7B" 1000 1 hw "local") as [e|r]; [reflexivity|].
       cbv zeta. destruct (negb _); reflexivity. }
  rewrite andb_true_r, forallb_forall. split.
  - intros Hall hw ex ds Hin. specialize (Hall _ Hin).
    unfold SuccessCriteriaVerifier.check_compatibility_case in Hall.
    destruct (calculate_7B_local_compatible hw) as [Hvalid Hinvalid].
    destruct (in_dec string_dec hw Spec.hardwares) as [Hhw|Hhw].
    + split; [exact Hhw|].
      destruct (Hvalid Hhw) as (r & Hr & Hc). rewrite Hr in Hall.
      cbv zeta in Hall. rewrite Hc in Hall.
      destruct (String.eqb hw "CPU"), ex; try reflexivity; discriminate Hall.
    + destruct (Hinvalid Hhw) as (e & He). rewrite He in Hall.
      discriminate Hall.
  - intros Hall [[hw ex] ds] Hin. destruct (Hall _ _ _ Hin) as [Hhw ->].
    unfold SuccessCriteriaVerifier.check_compatibility_case.
    destruct (calculate_7B_local_compatible hw) as [Hvalid _].
    destruct (Hvalid Hhw) as (r & Hr & Hc). rewrite Hr. cbv zeta.
    rewrite Hc, Bool.eqb_reflx. reflexivity.
Qed.

(** X19.  The loop of [test_criterion_3_cost_calculations] returns True
    exactly when every case is a valid request whose cost for 1000 tokens
    lies within the expected range, bounds included.  On the table of the
    repository it returns False: the local 7B request on GPU_16GB costs
    more than 0.0015 USD against an upper bound of 0.001, while the two API
    cases are within their ranges. *)
Theorem criterion_3_passes_iff :
  forall test_cases : list SuccessCriteriaVerifier.cost_case,
    (SuccessCriteriaVerifier.criterion_3_loop test_cases = true <->
     forall c, In c test_cases ->
       exists r,
         calculate (SuccessCriteriaVerifier.case_model c) 1000 1
           (SuccessCriteriaVerifier.case_hardware c)
           (SuccessCriteriaVerifier.case_deployment c) = inr r
         /\ fst (SuccessCriteriaVerifier.expected_cost_range c)
            <= cost_per_request_usd r
         /\ cost_per_request_usd r
            <= snd (SuccessCriteriaVerifier.expected_cost_range c))
    /\ SuccessCriteriaVerifier.test_criterion_3_cost_calculations = false
    /\ 0.0015 < calculate_cost SEVEN_B 1000 1 GPU_16GB LOCAL
    /\ SuccessCriteriaVerifier.criterion_3_loop
         (tl SuccessCriteriaVerifier.criterion_3_test_cases) = true.
Proof.
  intros test_cases.
  split; [|split; [reflexivity | split; reflexivity]].
  unfold SuccessCriteriaVerifier.criterion_3_loop.
  rewrite (fold_left_passed _
             (fun c => SuccessCriteriaVerifier.check_cost_case true c)).
  2: { intros p c. unfold SuccessCriteriaVerifier.check_cost_case.
       destruct (calculate _ 1000 1 _ _) as [e|r]; [reflexivity|].
       cbv zeta.
       destruct (SuccessCriteriaVerifier.expected_cost_range c) as [lo hi].
       destruct (_ || _); reflexivity. }
  rewrite andb_true_r, forallb_forall. split.
  - intros Hall c Hin. specialize (Hall c Hin).
    unfold SuccessCriteriaVerifier.check_cost_case in Hall.
    destruct (calculate _ 1000 1 _ _) as [e|r]; [discriminate Hall|].
    exists r. split; [reflexivity|]. cbv zeta in Hall.
    destruct (SuccessCriteriaVerifier.expected_cost_range c) as [lo hi].
    cbn [fst snd].
    destruct (lt_float (cost_per_request_usd r) lo) eqn:Hlo;
      [discriminate Hall|].
    destruct (lt_float hi (cost_per_request_usd r)) eqn:Hhi;
      [discriminate Hall|].
    split; now apply lt_float_false_iff.
  - intros Hall c Hin. destruct (Hall c Hin) as (r & Hr & Hlo & Hhi).
    unfold SuccessCriteriaVerifier.check_cost_case. rewrite Hr. cbv zeta.
    destruct (SuccessCriteriaVerifier.expected_cost_range c) as [lo hi].
    cbn [fst snd] in Hlo, Hhi.
    apply lt_float_false_iff in Hlo, Hhi. rewrite Hlo, Hhi. reflexivity.
Qed.
